(** * xmonitor: the taskflow task executor and the image-import script

    A shallow embedding of [xmonitor/async/taskflow_executor.py] (class
    [TaskExecutor]: [_fetch_an_executor], [_get_flow], [begin_processing],
    [_run]) and of the import script exercised by
    [xmonitor/tests/unit/common/scripts/image_import/test_main.py].

    Python code that raises is modelled in a state-and-exception monad:
    a computation takes the world (the two repositories and a
    chronological trace of the calls made on collaborators) and yields the
    new world together with either a value or the raised exception.  The
    world survives a raise, as the effects of a Python call do. *)

From Stdlib Require Import ZArith.
From stdpp Require Import base option list strings gmap.

(** ** Exceptions *)

(** The exception classes the executor names, plus one representative for
    every other subclass of [Exception] and one for the classes that sit
    under [BaseException] only ([KeyboardInterrupt], [SystemExit]).  The
    classes of [xmonitor.common.exception] are leaves under [Exception]. *)
Inductive exc_class :=
  | BaseException
  | Exception
  | RuntimeError
  | NotImplementedError
  | URLError
  | BadStoreUri
  | Invalid
  | ImportTaskError
  | NotFound
  | NotAuthenticated.

#[global] Instance exc_class_eq_dec : EqDecision exc_class.
Proof. solve_decision. Defined.

(** [exc_detail] stands for [exc.msg], [exc.reason] and [str(exc)]. *)
Record exn := Exn { exc_cls : exc_class; exc_detail : string }.

(** [issubclass c d]: Python's builtin hierarchy has
    [NotImplementedError < RuntimeError < Exception < BaseException]. *)
Definition issubclass (c d : exc_class) : bool :=
  match d with
  | BaseException => true
  | Exception => negb (bool_decide (c = BaseException))
  | RuntimeError =>
      bool_decide (c = RuntimeError) || bool_decide (c = NotImplementedError)
  | _ => bool_decide (c = d)
  end.

Definition isinstance (e : exn) (d : exc_class) : bool :=
  issubclass (exc_cls e) d.

(** ** Data model *)

Inductive task_status := pending | processing | success | failure.

Record Task := mkTask {
  task_id : string;
  type : string;
  status : task_status;
  task_input : gmap string string;
  message : string;
  owner_context : string
}.

Record Image := mkImage {
  image_id : string;
  image_status : string;
  locations : list string
}.

Inductive pool_kind := GreenThreadPool | NativeThreadPool.

(** A [futurist] executor: which implementation backs it and its bound. *)
Record Pool := mkPool { pool_backing : pool_kind; pool_max_workers : Z }.

(** What the flow and the executor share: the task repository and the
    image repository. *)
Record Repos := mkRepos {
  task_repo : gmap string Task;
  image_repo : gmap string Image
}.

(** Calls on collaborators, in the order they happen. *)
Inductive event :=
  | LogDebug (msg : string)
  | LogError (msg : string)
  | LogException (msg : string)
  | RepoGet (id : string)
  | RepoSave (t : Task)
  | DriverLoad (namespace name : string)
  | PoolConstruct (k : pool_kind) (n : Z)
  | EngineRun (mode : string) (executor : option Pool) (n : Z)
  | PoolShutdown (p : Pool).

Record World := mkWorld {
  repos : Repos;
  trace : list event
}.

(** ** The monad *)

Inductive outcome (A : Type) :=
  | Return (a : A)
  | Raise (e : exn).
Arguments Return {A} a.
Arguments Raise {A} e.

Definition M (St A : Type) : Type := St -> St * outcome A.

Definition ret {St A} (a : A) : M St A := fun w => (w, Return a).
Definition raise {St A} (e : exn) : M St A := fun w => (w, Raise e).

Definition bind {St A B} (m : M St A) (k : A -> M St B) : M St B :=
  fun w =>
    match m w with
    | (w', Return a) => k a w'
    | (w', Raise e) => (w', Raise e)
    end.

Notation "x <- m ;; k" := (bind m (fun x => k))
  (at level 100, m at next level, right associativity).
Notation "m ;;; k" := (bind m (fun _ => k))
  (at level 100, right associativity).

(** A pure call that may raise. *)
Definition lift {St A} (o : outcome A) : M St A := fun w => (w, o).

(** [try: body except ...: handler]: the handler receives every exception
    and re-raises the ones no clause names. *)
Definition try_except {St A} (body : M St A) (handler : exn -> M St A)
    : M St A :=
  fun w =>
    match body w with
    | (w', Return a) => (w', Return a)
    | (w', Raise e) => handler e w'
    end.

(** [try: body finally: fin]: [fin] runs on every exit of [body]; an
    exception of [fin] replaces the pending result. *)
Definition try_finally {St A} (body : M St A) (fin : M St unit) : M St A :=
  fun w =>
    match body w with
    | (w', r) =>
        match fin w' with
        | (w'', Return _) => (w'', r)
        | (w'', Raise e) => (w'', Raise e)
        end
    end.

(** [with excutils.save_and_reraise_exception(): body]: after [body] the
    saved exception is raised again; an exception of [body] takes over. *)
Definition save_and_reraise_exception {St A} (exc : exn) (body : M St unit)
    : M St A :=
  body ;;; raise exc.

(** [for x in xs: body x]. *)
Fixpoint for_each {St A} (xs : list A) (body : A -> M St unit) : M St unit :=
  match xs with
  | [] => ret tt
  | x :: xs' => body x ;;; for_each xs' body
  end.

Definition emit (ev : event) : M World unit :=
  fun w => (mkWorld (repos w) (trace w ++ [ev]), Return tt).

(** ** Collaborators *)

(** The keyword arguments [_get_flow] hands to the driver.  The three
    repository handles of the source ([task_repo], [image_repo],
    [image_factory]) are the repositories of the world. *)
Record Kwds := mkKwds {
  kw_uri : string;
  kw_task_id : string;
  kw_task_type : string;
  kw_context : string
}.

(** A loaded flow: what [engines.load (flow, engine=mode,
    executor=executor, max_workers=n)] followed by [engine.run ()] does to
    the repositories, and the exception it ends with, if any. *)
Definition Flow : Type :=
  string -> option Pool -> Z -> Repos -> Repos * option exn.

(** Configuration and the libraries the executor calls into
    ([script_utils], [stevedore], [futurist]).  A constructor of a pool
    answers [None] when it succeeds and the exception it raises
    otherwise. *)
Record Env := mkEnv {
  engine_mode : string;
  max_workers : Z;
  unpack_task_input : Task -> outcome (gmap string string);
  validate_location_uri : option string -> outcome string;
  DriverManager : string -> string -> Kwds -> outcome Flow;
  GreenThreadPoolExecutor_init : Z -> option exn;
  ThreadPoolExecutor_init : Z -> option exn
}.

(** [self]: the request context the executor was built with.  Its
    repositories and image factory are the repositories of the world. *)
Record TaskExecutor := mkTaskExecutor { context : string }.

(** Modelled from the spec: the Task Repository of section 6, whose
    implementation is outside the sources:
    [get (task_id) -> Task | NotFound] and [save (task) -> ()],
    last write wins. *)
Definition task_repo_get (id : string) : M World Task :=
  emit (RepoGet id) ;;;
  fun w =>
    match task_repo (repos w) !! id with
    | Some t => (w, Return t)
    | None => (w, Raise (Exn NotFound id))
    end.

(** Modelled from the spec: [save (task) -> ()] of the same Task
    Repository; the record is stored under its own id. *)
Definition task_repo_save (t : Task) : M World unit :=
  fun w =>
    (mkWorld
       (mkRepos (<[task_id t := t]> (task_repo (repos w)))
                (image_repo (repos w)))
       (trace w ++ [RepoSave t]),
     Return tt).

(** Modelled from the spec: [fail] of the Task Record of section 3, whose
    class is outside the sources; it moves the record to [failure] and
    sets its message.  Whether that class refuses a record that is
    already terminal is outside the sources: no statement below rests on
    a record being failed twice. *)
Definition Task_fail (t : Task) (msg : string) : Task :=
  mkTask (task_id t) (type t) failure (task_input t) msg (owner_context t).

(** Modelled from the spec: the transition of the Task Record to
    [processing] (section 4.1), set just before dispatch. *)
Definition Task_begin_processing (t : Task) : Task :=
  mkTask (task_id t) (type t) processing (task_input t) (message t)
         (owner_context t).

(** Modelled from the spec: [script_utils.get_task], outside the sources.
    Section 4.1: a record that cannot be loaded is logged and answered
    with no task, without an error. *)
Definition get_task (id : string) : M World (option Task) :=
  try_except
    (t <- task_repo_get id ;; ret (Some t))
    (fun exc =>
       if isinstance exc NotFound
       then emit (LogException ("Task not found for task_id " +:+ id)) ;;;
            ret None
       else raise exc).

(** [futurist.GreenThreadPoolExecutor (max_workers=n)]. *)
Definition GreenThreadPoolExecutor (env : Env) (n : Z) : M World Pool :=
  emit (PoolConstruct GreenThreadPool n) ;;;
  match GreenThreadPoolExecutor_init env n with
  | None => ret (mkPool GreenThreadPool n)
  | Some e => raise e
  end.

(** [futurist.ThreadPoolExecutor (max_workers=n)]. *)
Definition ThreadPoolExecutor (env : Env) (n : Z) : M World Pool :=
  emit (PoolConstruct NativeThreadPool n) ;;;
  match ThreadPoolExecutor_init env n with
  | None => ret (mkPool NativeThreadPool n)
  | Some e => raise e
  end.

(** [executor.shutdown ()]. *)
Definition shutdown (p : Pool) : M World unit := emit (PoolShutdown p).

(** [engines.load] and, under the logging listener, [engine.run] on a
    resolved flow. *)
Definition engine_load_and_run (flow : Flow) (mode : string)
    (executor : option Pool) (n : Z) : M World unit :=
  emit (EngineRun mode executor n) ;;;
  fun w =>
    match flow mode executor n (repos w) with
    | (r', None) => (mkWorld r' (trace w), Return tt)
    | (r', Some e) => (mkWorld r' (trace w), Raise e)
    end.

(** The two messages of the executor. *)
Definition failed_to_execute (id detail : string) : string :=
  "Failed to execute task " +:+ id +:+ ": " +:+ detail.

Definition internal_error_message : string :=
  "Task failed due to Internal Error".

(** ** taskflow_executor.TaskExecutor *)

Definition _fetch_an_executor (env : Env) : M World (option Pool) :=
  if negb (String.eqb (engine_mode env) "parallel") then
    ret None
  else
    let max_workers := max_workers env in
    try_except
      (p <- GreenThreadPoolExecutor env max_workers ;; ret (Some p))
      (fun exc =>
         if isinstance exc RuntimeError then
           p <- ThreadPoolExecutor env max_workers ;; ret (Some p)
         else raise exc).

(** An [ImportTaskError (message=m)] carries [m] as its [msg]; a
    [NotImplementedError ()] carries nothing. *)
Definition _get_flow (env : Env) (self : TaskExecutor) (task : Task)
    : M World Flow :=
  try_except
    (task_input <- lift (unpack_task_input env task) ;;
     uri <- lift (validate_location_uri env (task_input !! "import_from")) ;;
     let kwds :=
       mkKwds uri (task_id task) (type task) (context self) in
     emit (DriverLoad "xmonitor.flows" (type task)) ;;;
     lift (DriverManager env "xmonitor.flows" (type task) kwds))
    (fun exc =>
       if isinstance exc URLError then
         raise (Exn ImportTaskError (exc_detail exc))
       else if isinstance exc BadStoreUri || isinstance exc Invalid then
         raise (Exn ImportTaskError (exc_detail exc))
       else if isinstance exc RuntimeError then
         raise (Exn NotImplementedError "")
       else raise exc).

Definition _run (env : Env) (self : TaskExecutor)
    (task_id task_type : string) : M World unit :=
  emit (LogDebug
          ("Taskflow executor picked up the execution of task ID "
           +:+ task_id +:+ " of task type " +:+ task_type)) ;;;
  task <- get_task task_id ;;
  match task with
  | None => ret tt
  | Some task =>
      flow <- _get_flow env self task ;;
      executor <- _fetch_an_executor env ;;
      try_finally
        (try_except
           (engine_load_and_run flow (engine_mode env) executor
                                (max_workers env))
           (fun exc =>
              if isinstance exc Exception then
                save_and_reraise_exception exc
                  (emit (LogError
                           (failed_to_execute task_id (exc_detail exc))) ;;;
                   task_repo_save (Task_fail task internal_error_message))
              else raise exc))
        (match executor with
         | Some p => shutdown p
         | None => ret tt
         end)
  end.

(** Modelled from the spec: [begin_processing] of the base class
    [xmonitor.async.TaskExecutor], whose module is outside the sources.
    Sections 2, 4.1 and 4.5: the record is loaded, an absent record is
    only logged, a loaded one is moved to [processing] and saved, and the
    run is dispatched to [_run] with the record's type.  An exception of
    [_run] passes through: the handler of the override below relies on
    that. *)
Definition super_begin_processing (env : Env) (self : TaskExecutor)
    (task_id : string) : M World unit :=
  task <- get_task task_id ;;
  match task with
  | None => ret tt
  | Some task =>
      let task := Task_begin_processing task in
      task_repo_save task ;;;
      _run env self task_id (type task)
  end.

Definition begin_processing (env : Env) (self : TaskExecutor)
    (task_id : string) : M World unit :=
  try_except
    (super_begin_processing env self task_id)
    (fun exc =>
       if isinstance exc ImportTaskError then
         emit (LogError (failed_to_execute task_id (exc_detail exc))) ;;;
         task <- task_repo_get task_id ;;
         task_repo_save (Task_fail task (exc_detail exc))
       else raise exc).

(** ** The import script ([common/scripts/image_import/main.py]) *)

(** Calls the import script makes on its collaborators. *)
Inductive import_event :=
  | NewImage (img : Image)
  | ImageSave (img : Image)
  | ImageGet (id : string)
  | StoreWrite (id uri : string)
  | StoreDelete (id location : string).

(** The image repository with the number of [get] and [save] calls it has
    answered, and the calls made so far. *)
Record ImportWorld := mkImportWorld {
  images : gmap string Image;
  gets : nat;
  saves : nat;
  calls : list import_event
}.

(** The collaborators of section 6.  [get_fault n] and [save_fault n] say
    whether the [n]-th [get] or [save] of the image repository raises (an
    expired authorization shows up there), the way the unit tests script
    [image_repo.get.side_effect]. *)
Record ImportEnv := mkImportEnv {
  new_image : gmap string string -> Image;
  store_write : Image -> string -> outcome (list string);
  get_fault : nat -> option exn;
  save_fault : nat -> option exn
}.

Definition record (ev : import_event) : M ImportWorld unit :=
  fun w =>
    (mkImportWorld (images w) (gets w) (saves w) (calls w ++ [ev]),
     Return tt).

(** Modelled from the spec: the Image Repository of section 6,
    [get (image_id) -> Image] and [save (image) -> ()]; the repository
    is outside the sources. *)
Definition image_repo_get (env : ImportEnv) (id : string)
    : M ImportWorld Image :=
  record (ImageGet id) ;;;
  fun w =>
    let w' := mkImportWorld (images w) (S (gets w)) (saves w) (calls w) in
    match get_fault env (gets w) with
    | Some e => (w', Raise e)
    | None =>
        match images w !! id with
        | Some img => (w', Return img)
        | None => (w', Raise (Exn NotFound id))
        end
    end.

(** Modelled from the spec: [save (image) -> ()] of the same Image
    Repository; the record is stored under its own id. *)
Definition image_repo_save (env : ImportEnv) (img : Image)
    : M ImportWorld unit :=
  record (ImageSave img) ;;;
  fun w =>
    match save_fault env (saves w) with
    | Some e =>
        (mkImportWorld (images w) (gets w) (S (saves w)) (calls w), Raise e)
    | None =>
        (mkImportWorld (<[image_id img := img]> (images w)) (gets w)
                       (S (saves w)) (calls w),
         Return tt)
    end.

(** Modelled from the spec: [create_image] of the import script, outside
    the sources.  Section 4.4 step 2: a new image record is constructed by
    the image factory from the declared [image_properties]. *)
Definition create_image (env : ImportEnv) (image_properties : gmap string string)
    : M ImportWorld Image :=
  let image := new_image env image_properties in
  record (NewImage image) ;;; ret image.

(** Modelled from the spec: [set_image_data] of the import script, outside
    the sources.  Section 4.4 step 3: the bytes are streamed from the
    source into storage; the in-memory record receives the written
    locations and its post-transfer status; a transfer error propagates. *)
Definition set_image_data (env : ImportEnv) (image : Image) (uri : string)
    : M ImportWorld Image :=
  record (StoreWrite (image_id image) uri) ;;;
  written <- lift (store_write env image uri) ;;
  ret (mkImage (image_id image) "active" (locations image ++ written)).

(** Modelled from the spec: [delete_location (image_id, location) -> ()]
    of the Storage Backend of section 6, reached through [store_utils],
    which is outside the sources. *)
Definition delete_image_location_from_backend (id location : string)
    : M ImportWorld unit :=
  record (StoreDelete id location).

(** Modelled from the spec: [import_image] of the import script, outside
    the sources; section 4.4 steps 2 to 5, with the calls on the image
    repository in the order [test_main.py] scripts them (one [get] before
    the transfer, the reload after it).  On an authorization failure of
    the reload or of the final save, the locations of the in-memory
    record are deleted and the failure is raised again.  The repository
    and factory arguments of the script are the world and the
    environment here; its [task_id] argument is not used by these
    steps. *)
Definition import_image (env : ImportEnv)
    (image_properties : gmap string string) (uri : string)
    : M ImportWorld string :=
  original_image <- create_image env image_properties ;;
  let original_image :=
    mkImage (image_id original_image) "saving" (locations original_image) in
  image_repo_save env original_image ;;;
  let image_id := image_id original_image in
  new_image <- image_repo_get env image_id ;;
  new_image <- set_image_data env new_image uri ;;
  try_except
    (_ <- image_repo_get env image_id ;;
     image_repo_save env new_image ;;;
     ret image_id)
    (fun exc =>
       if isinstance exc NotAuthenticated then
         save_and_reraise_exception exc
           (for_each (locations new_image)
              (delete_image_location_from_backend image_id))
       else raise exc).

(** ** Observations used in the statements *)

(** The world before anything has happened. *)
Definition initial_world : World := mkWorld (mkRepos ∅ ∅) [].

(** What [_get_flow] and [_fetch_an_executor] answer: neither reads the
    world (lemmas [_get_flow_frame] and [_fetch_an_executor_frame]). *)
Definition get_flow_outcome (env : Env) (self : TaskExecutor) (task : Task)
    : outcome Flow :=
  snd (_get_flow env self task initial_world).

Definition get_flow_events (env : Env) (self : TaskExecutor) (task : Task)
    : list event :=
  trace (fst (_get_flow env self task initial_world)).

Definition fetch_outcome (env : Env) : outcome (option Pool) :=
  snd (_fetch_an_executor env initial_world).

Definition fetch_events (env : Env) : list event :=
  trace (fst (_fetch_an_executor env initial_world)).

(** The calls made between two worlds of one run. *)
Definition events_since (w w' : World) : list event :=
  drop (length (trace w)) (trace w').

Definition calls_since (w w' : ImportWorld) : list import_event :=
  drop (length (calls w)) (calls w').

Definition is_PoolShutdown (ev : event) : bool :=
  match ev with PoolShutdown _ => true | _ => false end.

Definition is_RepoSave (ev : event) : bool :=
  match ev with RepoSave _ => true | _ => false end.

Definition is_StoreDelete (ev : import_event) : bool :=
  match ev with StoreDelete _ _ => true | _ => false end.

(** What the [finally] clause of [_run] does for an executor. *)
Definition shutdown_events (executor : option Pool) : list event :=
  match executor with
  | Some p => [PoolShutdown p]
  | None => []
  end.

(** The calls [_run] makes before it resolves the flow. *)
Definition pickup_events (task_id task_type : string) : list event :=
  [LogDebug
     ("Taskflow executor picked up the execution of task ID "
      +:+ task_id +:+ " of task type " +:+ task_type);
   RepoGet task_id].

(** The record of a task in a world, if any. *)
Definition task_record (w : World) (id : string) : option Task :=
  task_repo (repos w) !! id.

(** The world in which the base class dispatches a loaded task to [_run]:
    the record has been moved to [processing] and saved. *)
Definition dispatched (t : Task) (w : World) : World :=
  mkWorld
    (mkRepos (<[task_id t := Task_begin_processing t]> (task_repo (repos w)))
             (image_repo (repos w)))
    (trace w ++ [RepoGet (task_id t); RepoSave (Task_begin_processing t)]).

(** Driver resolution, pool acquisition and flow execution. *)
Definition is_dispatch_work (ev : event) : bool :=
  match ev with
  | DriverLoad _ _ | PoolConstruct _ _ | EngineRun _ _ _ => true
  | _ => false
  end.

(** The [try] body of [_get_flow] raises [e]: while the input is
    unpacked, while the source location is validated, or while the driver
    is loaded. *)
Definition raised_before_flow (env : Env) (self : TaskExecutor) (t : Task)
    (e : exn) : Prop :=
  unpack_task_input env t = Raise e \/
  (exists inp,
     unpack_task_input env t = Return inp /\
     validate_location_uri env (inp !! "import_from") = Raise e) \/
  (exists inp uri,
     unpack_task_input env t = Return inp /\
     validate_location_uri env (inp !! "import_from") = Return uri /\
     DriverManager env "xmonitor.flows" (type t)
       (mkKwds uri (task_id t) (type t) (context self)) = Raise e).

(** The classes [_get_flow] turns into an [ImportTaskError], and that
    class itself. *)
Definition validation_error (e : exn) : bool :=
  isinstance e URLError || isinstance e BadStoreUri || isinstance e Invalid
  || isinstance e ImportTaskError.

(** The world after the [except ImportTaskError] clause of
    [begin_processing] has recorded the failure [e] on the record [cur]
    it loaded. *)
Definition failure_recorded (id : string) (cur : Task) (e : exn) (w : World)
    : World :=
  mkWorld
    (mkRepos (<[task_id cur := Task_fail cur (exc_detail e)]>
                (task_repo (repos w)))
             (image_repo (repos w)))
    (trace w ++ [LogError (failed_to_execute id (exc_detail e));
                 RepoGet id;
                 RepoSave (Task_fail cur (exc_detail e))]).

(** The provisional record [import_image] saves before the transfer, and
    the in-memory record after a transfer that wrote [written]. *)
Definition provisional_image (env : ImportEnv) (props : gmap string string)
    : Image :=
  mkImage (image_id (new_image env props)) "saving"
          (locations (new_image env props)).

Definition transferred_image (env : ImportEnv) (props : gmap string string)
    (written : list string) : Image :=
  mkImage (image_id (new_image env props)) "active"
          (locations (new_image env props) ++ written).

(** The calls of [import_image] up to and including the transfer. *)
Definition calls_up_to_transfer (env : ImportEnv)
    (props : gmap string string) (uri : string) : list import_event :=
  [NewImage (new_image env props);
   ImageSave (provisional_image env props);
   ImageGet (image_id (new_image env props));
   StoreWrite (image_id (new_image env props)) uri].

(** ** Sample inputs *)

Definition sample_task : Task :=
  mkTask "t1" "import" pending
    {["import_from" := "http://www.example.com/image.qcow2"]} "" "admin".

Definition sample_world : World :=
  mkWorld (mkRepos {["t1" := sample_task]} ∅) [].

Definition sample_self : TaskExecutor := mkTaskExecutor "admin".

(** A flow that completes and leaves the repositories alone. *)
Definition flow_ok : Flow := fun _ _ _ r => (r, None).

(** A flow that ends with the exception [e]. *)
Definition flow_raising (e : exn) : Flow := fun _ _ _ r => (r, Some e).

(** [script_utils] as the tests use it: the input is the record's input,
    a location needs the [http] scheme. *)
Definition sample_unpack (t : Task) : outcome (gmap string string) :=
  Return (task_input t).

Definition sample_validate (o : option string) : outcome string :=
  match o with
  | Some uri =>
      if String.prefix "http://" uri then Return uri
      else Raise (Exn URLError "unknown url type")
  | None => Raise (Exn Invalid "Input does not contain 'import_from' field")
  end.

(** An environment in which the driver load answers [d], the cooperative
    pool [green] and the thread pool [native]. *)
Definition sample_env (mode : string) (d : outcome Flow)
    (green native : option exn) : Env :=
  mkEnv mode 10 sample_unpack sample_validate (fun _ _ _ => d)
        (fun _ => green) (fun _ => native).

Definition no_eventlet : exn :=
  Exn RuntimeError "Eventlet is needed to use a green executor".

Definition no_driver : exn :=
  Exn RuntimeError "No 'xmonitor.flows' driver found, looking for 'import'".

Definition keyboard_interrupt : exn := Exn BaseException "KeyboardInterrupt".

(** The import script as [test_main.py] drives it: the factory answers a
    queued image, the transfer writes one location, and the repository
    answers the [n]-th [get] and [save] as the two lists say. *)
Definition sample_import_env (get_faults save_faults : list (option exn))
    : ImportEnv :=
  mkImportEnv
    (fun _ => mkImage "image-1" "queued" [])
    (fun _ _ => Return ["location"])
    (fun n => default None (get_faults !! n))
    (fun n => default None (save_faults !! n)).

Definition sample_import_world : ImportWorld := mkImportWorld ∅ 0 0 [].

Definition expired_token : exn := Exn NotAuthenticated "expired token".

(** ** Further observations on the executor *)

Definition is_EngineRun (ev : event) : bool :=
  match ev with EngineRun _ _ _ => true | _ => false end.

Definition is_LogError (ev : event) : bool :=
  match ev with LogError _ => true | _ => false end.

(** Constructing or shutting down a pool. *)
Definition is_pool_event (ev : event) : bool :=
  match ev with
  | PoolConstruct _ _ | PoolShutdown _ => true
  | _ => false
  end.

(** The shutdown that answers the start of an engine on a pool. *)
Definition shutdown_of_engine_run (ev : event) : option event :=
  match ev with
  | EngineRun _ (Some p) _ => Some (PoolShutdown p)
  | _ => None
  end.

(** The repositories as the flow of a run leaves them; the repositories of
    the world when the run does not get as far as the engine. *)
Definition repos_after_flow (env : Env) (self : TaskExecutor) (t : Task)
    (w : World) : Repos :=
  match get_flow_outcome env self t with
  | Return flow =>
      match fetch_outcome env with
      | Return executor =>
          fst (flow (engine_mode env) executor (max_workers env) (repos w))
      | Raise _ => repos w
      end
  | Raise _ => repos w
  end.

(** ** gateway.py *)

(** The objects [Gateway] builds.  Its getters only construct: a domain or
    database object, wrapped in proxies.  An object is kept as the term of
    its construction, with the module and class of each constructor and
    the arguments it was given. *)
Module Gateway.

(** The modules the constructors come from. *)
Inductive module :=
  | domain
  | db
  | location
  | quota
  | policy
  | notifier
  | property_protections
  | authorization.

(** The arguments of a constructor besides the wrapped object: the
    request context, a field of the gateway ([self.db_api],
    [self.store_api], [self.store_utils], [self.notifier],
    [self.policy]), the image of a member repository, or the rules of
    the property protections, [property_utils.PropertyRules (p)], built
    on the spot from their own argument. *)
Inductive arg :=
  | context (c : string)
  | db_api
  | store_api
  | store_utils
  | the_notifier
  | the_policy
  | image (i : string)
  | PropertyRules (p : arg).

Inductive obj :=
  | New (m : module) (class : string) (args : list arg)
  | Proxy (m : module) (class : string) (inner : obj) (args : list arg).

Definition get_image_factory (c : string) (protection_enabled : bool)
    : obj :=
  let image_factory := New domain "ImageFactory" [] in
  let store_image_factory :=
    Proxy location "ImageFactoryProxy" image_factory
          [context c; store_api; store_utils] in
  let quota_image_factory :=
    Proxy quota "ImageFactoryProxy" store_image_factory
          [context c; db_api; store_utils] in
  let policy_image_factory :=
    Proxy policy "ImageFactoryProxy" quota_image_factory
          [context c; the_policy] in
  let notifier_image_factory :=
    Proxy notifier "ImageFactoryProxy" policy_image_factory
          [context c; the_notifier] in
  if protection_enabled then
    let pif :=
      Proxy property_protections "ProtectedImageFactoryProxy"
            notifier_image_factory
            [context c; PropertyRules the_policy] in
    Proxy authorization "ImageFactoryProxy" pif [context c]
  else
    Proxy authorization "ImageFactoryProxy" notifier_image_factory
          [context c].

Definition get_image_member_factory (c : string) : obj :=
  let image_factory := New domain "ImageMemberFactory" [] in
  let quota_image_factory :=
    Proxy quota "ImageMemberFactoryProxy" image_factory
          [context c; db_api; store_utils] in
  let policy_member_factory :=
    Proxy policy "ImageMemberFactoryProxy" quota_image_factory
          [context c; the_policy] in
  Proxy authorization "ImageMemberFactoryProxy" policy_member_factory
        [context c].

Definition get_repo (c : string) (protection_enabled : bool) : obj :=
  let image_repo := New db "ImageRepo" [context c; db_api] in
  let store_image_repo :=
    Proxy location "ImageRepoProxy" image_repo
          [context c; store_api; store_utils] in
  let quota_image_repo :=
    Proxy quota "ImageRepoProxy" store_image_repo
          [context c; db_api; store_utils] in
  let policy_image_repo :=
    Proxy policy "ImageRepoProxy" quota_image_repo
          [context c; the_policy] in
  let notifier_image_repo :=
    Proxy notifier "ImageRepoProxy" policy_image_repo
          [context c; the_notifier] in
  if protection_enabled then
    let pir :=
      Proxy property_protections "ProtectedImageRepoProxy"
            notifier_image_repo [context c; PropertyRules the_policy] in
    Proxy authorization "ImageRepoProxy" pir [context c]
  else
    Proxy authorization "ImageRepoProxy" notifier_image_repo [context c].

Definition get_member_repo (i : string) (c : string) : obj :=
  let image_member_repo :=
    New db "ImageMemberRepo" [context c; db_api; image i] in
  let store_image_repo :=
    Proxy location "ImageMemberRepoProxy" image_member_repo
          [image i; context c; store_api] in
  let policy_member_repo :=
    Proxy policy "ImageMemberRepoProxy" store_image_repo
          [image i; context c; the_policy] in
  let notifier_member_repo :=
    Proxy notifier "ImageMemberRepoProxy" policy_member_repo
          [image i; context c; the_notifier] in
  Proxy authorization "ImageMemberRepoProxy" notifier_member_repo
        [image i; context c].

(** The pattern of the task and metadata getters: policy, notifier,
    authorization around a base object. *)
Definition get_task_factory (c : string) : obj :=
  let task_factory := New domain "TaskFactory" [] in
  let policy_task_factory :=
    Proxy policy "TaskFactoryProxy" task_factory [context c; the_policy] in
  let notifier_task_factory :=
    Proxy notifier "TaskFactoryProxy" policy_task_factory
          [context c; the_notifier] in
  Proxy authorization "TaskFactoryProxy" notifier_task_factory [context c].

Definition get_task_repo (c : string) : obj :=
  let task_repo := New db "TaskRepo" [context c; db_api] in
  let policy_task_repo :=
    Proxy policy "TaskRepoProxy" task_repo [context c; the_policy] in
  let notifier_task_repo :=
    Proxy notifier "TaskRepoProxy" policy_task_repo
          [context c; the_notifier] in
  Proxy authorization "TaskRepoProxy" notifier_task_repo [context c].

Definition get_task_stub_repo (c : string) : obj :=
  let task_stub_repo := New db "TaskRepo" [context c; db_api] in
  let policy_task_stub_repo :=
    Proxy policy "TaskStubRepoProxy" task_stub_repo
          [context c; the_policy] in
  let notifier_task_stub_repo :=
    Proxy notifier "TaskStubRepoProxy" policy_task_stub_repo
          [context c; the_notifier] in
  Proxy authorization "TaskStubRepoProxy" notifier_task_stub_repo
        [context c].

(** [xmonitor.domain.TaskExecutorFactory (task_repo, image_repo,
    image_factory)]. *)
Record TaskExecutorFactory := mkTaskExecutorFactory {
  factory_task_repo : obj;
  factory_image_repo : obj;
  factory_image_factory : obj
}.

Definition get_task_executor_factory (c : string)
    (protection_enabled : bool) : TaskExecutorFactory :=
  let task_repo := get_task_repo c in
  let image_repo := get_repo c protection_enabled in
  let image_factory := get_image_factory c protection_enabled in
  mkTaskExecutorFactory task_repo image_repo image_factory.

Definition get_metadef_namespace_factory (c : string) : obj :=
  let ns_factory := New domain "MetadefNamespaceFactory" [] in
  let policy_ns_factory :=
    Proxy policy "MetadefNamespaceFactoryProxy" ns_factory
          [context c; the_policy] in
  let notifier_ns_factory :=
    Proxy notifier "MetadefNamespaceFactoryProxy" policy_ns_factory
          [context c; the_notifier] in
  Proxy authorization "MetadefNamespaceFactoryProxy" notifier_ns_factory
        [context c].

Definition get_metadef_namespace_repo (c : string) : obj :=
  let ns_repo := New db "MetadefNamespaceRepo" [context c; db_api] in
  let policy_ns_repo :=
    Proxy policy "MetadefNamespaceRepoProxy" ns_repo
          [context c; the_policy] in
  let notifier_ns_repo :=
    Proxy notifier "MetadefNamespaceRepoProxy" policy_ns_repo
          [context c; the_notifier] in
  Proxy authorization "MetadefNamespaceRepoProxy" notifier_ns_repo
        [context c].

Definition get_metadef_object_factory (c : string) : obj :=
  let object_factory := New domain "MetadefObjectFactory" [] in
  let policy_object_factory :=
    Proxy policy "MetadefObjectFactoryProxy" object_factory
          [context c; the_policy] in
  let notifier_object_factory :=
    Proxy notifier "MetadefObjectFactoryProxy" policy_object_factory
          [context c; the_notifier] in
  Proxy authorization "MetadefObjectFactoryProxy" notifier_object_factory
        [context c].

Definition get_metadef_object_repo (c : string) : obj :=
  let object_repo := New db "MetadefObjectRepo" [context c; db_api] in
  let policy_object_repo :=
    Proxy policy "MetadefObjectRepoProxy" object_repo
          [context c; the_policy] in
  let notifier_object_repo :=
    Proxy notifier "MetadefObjectRepoProxy" policy_object_repo
          [context c; the_notifier] in
  Proxy authorization "MetadefObjectRepoProxy" notifier_object_repo
        [context c].

Definition get_metadef_resource_type_factory (c : string) : obj :=
  let resource_type_factory :=
    New domain "MetadefResourceTypeFactory" [] in
  let policy_resource_type_factory :=
    Proxy policy "MetadefResourceTypeFactoryProxy" resource_type_factory
          [context c; the_policy] in
  let notifier_resource_type_factory :=
    Proxy notifier "MetadefResourceTypeFactoryProxy"
          policy_resource_type_factory [context c; the_notifier] in
  Proxy authorization "MetadefResourceTypeFactoryProxy"
        notifier_resource_type_factory [context c].

Definition get_metadef_resource_type_repo (c : string) : obj :=
  let resource_type_repo :=
    New db "MetadefResourceTypeRepo" [context c; db_api] in
  let policy_object_repo :=
    Proxy policy "MetadefResourceTypeRepoProxy" resource_type_repo
          [context c; the_policy] in
  let notifier_object_repo :=
    Proxy notifier "MetadefResourceTypeRepoProxy" policy_object_repo
          [context c; the_notifier] in
  Proxy authorization "MetadefResourceTypeRepoProxy" notifier_object_repo
        [context c].

Definition get_metadef_property_factory (c : string) : obj :=
  let prop_factory := New domain "MetadefPropertyFactory" [] in
  let policy_prop_factory :=
    Proxy policy "MetadefPropertyFactoryProxy" prop_factory
          [context c; the_policy] in
  let notifier_prop_factory :=
    Proxy notifier "MetadefPropertyFactoryProxy" policy_prop_factory
          [context c; the_notifier] in
  Proxy authorization "MetadefPropertyFactoryProxy" notifier_prop_factory
        [context c].

Definition get_metadef_property_repo (c : string) : obj :=
  let prop_repo := New db "MetadefPropertyRepo" [context c; db_api] in
  let policy_prop_repo :=
    Proxy policy "MetadefPropertyRepoProxy" prop_repo
          [context c; the_policy] in
  let notifier_prop_repo :=
    Proxy notifier "MetadefPropertyRepoProxy" policy_prop_repo
          [context c; the_notifier] in
  Proxy authorization "MetadefPropertyRepoProxy" notifier_prop_repo
        [context c].

Definition get_metadef_tag_factory (c : string) : obj :=
  let tag_factory := New domain "MetadefTagFactory" [] in
  let policy_tag_factory :=
    Proxy policy "MetadefTagFactoryProxy" tag_factory
          [context c; the_policy] in
  let notifier_tag_factory :=
    Proxy notifier "MetadefTagFactoryProxy" policy_tag_factory
          [context c; the_notifier] in
  Proxy authorization "MetadefTagFactoryProxy" notifier_tag_factory
        [context c].

Definition get_metadef_tag_repo (c : string) : obj :=
  let tag_repo := New db "MetadefTagRepo" [context c; db_api] in
  let policy_tag_repo :=
    Proxy policy "MetadefTagRepoProxy" tag_repo [context c; the_policy] in
  let notifier_tag_repo :=
    Proxy notifier "MetadefTagRepoProxy" policy_tag_repo
          [context c; the_notifier] in
  Proxy authorization "MetadefTagRepoProxy" notifier_tag_repo [context c].

(** *** Observations *)

(** The getters that answer a wrapped object. *)
Inductive getter :=
  | image_factory_getter
  | image_member_factory_getter
  | repo_getter
  | member_repo_getter (i : string)
  | task_factory_getter
  | task_repo_getter
  | task_stub_repo_getter
  | metadef_namespace_factory_getter
  | metadef_namespace_repo_getter
  | metadef_object_factory_getter
  | metadef_object_repo_getter
  | metadef_resource_type_factory_getter
  | metadef_resource_type_repo_getter
  | metadef_property_factory_getter
  | metadef_property_repo_getter
  | metadef_tag_factory_getter
  | metadef_tag_repo_getter.

Definition call (g : getter) (c : string) (protection_enabled : bool)
    : obj :=
  match g with
  | image_factory_getter => get_image_factory c protection_enabled
  | image_member_factory_getter => get_image_member_factory c
  | repo_getter => get_repo c protection_enabled
  | member_repo_getter i => get_member_repo i c
  | task_factory_getter => get_task_factory c
  | task_repo_getter => get_task_repo c
  | task_stub_repo_getter => get_task_stub_repo c
  | metadef_namespace_factory_getter => get_metadef_namespace_factory c
  | metadef_namespace_repo_getter => get_metadef_namespace_repo c
  | metadef_object_factory_getter => get_metadef_object_factory c
  | metadef_object_repo_getter => get_metadef_object_repo c
  | metadef_resource_type_factory_getter =>
      get_metadef_resource_type_factory c
  | metadef_resource_type_repo_getter => get_metadef_resource_type_repo c
  | metadef_property_factory_getter => get_metadef_property_factory c
  | metadef_property_repo_getter => get_metadef_property_repo c
  | metadef_tag_factory_getter => get_metadef_tag_factory c
  | metadef_tag_repo_getter => get_metadef_tag_repo c
  end.

(** The constructors of an object, outermost first. *)
Fixpoint layers (o : obj) : list (module * string * list arg) :=
  match o with
  | New m class args => [(m, class, args)]
  | Proxy m class inner args => (m, class, args) :: layers inner
  end.

Definition modules (o : obj) : list module :=
  (fun l => fst (fst l)) <$> layers o.

(** How far out a module sits. *)
Definition rank (m : module) : nat :=
  match m with
  | domain | db => 0
  | location => 1
  | quota => 2
  | policy => 3
  | notifier => 4
  | property_protections => 5
  | authorization => 6
  end.

Fixpoint decreasing (ns : list nat) : bool :=
  match ns with
  | n :: ((n' :: _) as rest) => (n' <? n)%nat && decreasing rest
  | _ => true
  end.

Definition contexts (args : list arg) : list string :=
  omap (fun a => match a with context c => Some c | _ => None end) args.

(** A constructor call: the module and class of a layer, or
    [PropertyRules], with the arguments of the call. *)
Inductive constructor :=
  | layer (m : module) (class : string)
  | rules.

(** The [PropertyRules] that are constructed among the arguments of a
    call. *)
Definition rules_calls (args : list arg) : list (constructor * list arg) :=
  omap (fun a => match a with
                 | PropertyRules p => Some (rules, [p])
                 | _ => None
                 end) args.

(** Every constructor call a getter makes while it builds an object,
    outermost first, the rules of a layer after the layer. *)
Fixpoint constructor_calls (o : obj) : list (constructor * list arg) :=
  match o with
  | New m class args => (layer m class, args) :: rules_calls args
  | Proxy m class inner args =>
      (layer m class, args) :: rules_calls args ++ constructor_calls inner
  end.

End Gateway.

(** ** api/v2/image_actions.py *)

(** The bodies of [ImageActionsController.deactivate] and [reactivate].
    The [utils.mutating] decorator around them, the image repository the
    gateway builds and the two transitions of the image are outside the
    sources: the repository and the transitions are taken from the
    environment, and the definitions below are the methods as written
    inside the decorator. *)
Module ImageActions.

(** The exceptions of [xmonitor.common.exception] the controller names,
    any other exception, and the [webob.exc] errors the controller
    raises, each with its [msg] or [explanation]. *)
Inductive error :=
  | NotFound (msg : string)
  | Forbidden (msg : string)
  | InvalidImageStatusTransition (msg : string)
  | OtherError (class msg : string)
  | HTTPNotFound (explanation : string)
  | HTTPForbidden (explanation : string)
  | HTTPBadRequest (explanation : string).

Inductive result (A : Type) :=
  | Ok (a : A)
  | Err (e : error).
Arguments Ok {A} a.
Arguments Err {A} e.

(** Calls on the repository, on the image and on the log. *)
Inductive call :=
  | Get (image_id : string)
  | Deactivate (img : Image)
  | Reactivate (img : Image)
  | Save (img : Image)
  | LogInfo (msg : string)
  | LogDebug (msg : string).

Record State := mkState {
  images : gmap string Image;
  calls : list call
}.

(** [image_repo.get], [image.deactivate], [image.reactivate] and
    [image_repo.save] as the repository of the request answers them: the
    image or the new content of the repository, or the exception
    raised. *)
Record Env := mkEnv {
  repo_get : gmap string Image -> string -> result Image;
  image_deactivate : Image -> result Image;
  image_reactivate : Image -> result Image;
  repo_save : gmap string Image -> Image -> result (gmap string Image)
}.

Definition Action (A : Type) : Type := State -> State * result A.

Definition bind {A B} (m : Action A) (k : A -> Action B) : Action B :=
  fun s =>
    match m s with
    | (s', Ok a) => k a s'
    | (s', Err e) => (s', Err e)
    end.

Definition log (c : call) : Action unit :=
  fun s => (mkState (images s) (calls s ++ [c]), Ok tt).

Definition get (env : Env) (image_id : string) : Action Image :=
  bind (log (Get image_id))
       (fun _ s => (s, repo_get env (images s) image_id)).

Definition save (env : Env) (img : Image) : Action unit :=
  bind (log (Save img))
       (fun _ s =>
          match repo_save env (images s) img with
          | Ok imgs => (mkState imgs (calls s), Ok tt)
          | Err e => (s, Err e)
          end).

Definition image_dot_deactivate (env : Env) (img : Image) : Action Image :=
  bind (log (Deactivate img)) (fun _ s => (s, image_deactivate env img)).

Definition image_dot_reactivate (env : Env) (img : Image) : Action Image :=
  bind (log (Reactivate img)) (fun _ s => (s, image_reactivate env img)).

Definition try_except {A} (body : Action A) (handler : error -> Action A)
    : Action A :=
  fun s =>
    match body s with
    | (s', Ok a) => (s', Ok a)
    | (s', Err e) => handler e s'
    end.

Definition raise {A} (e : error) : Action A := fun s => (s, Err e).

Definition deactivate (env : Env) (image_id : string) : Action unit :=
  try_except
    (bind (get env image_id) (fun image =>
     bind (image_dot_deactivate env image) (fun image =>
     bind (save env image) (fun _ =>
     log (LogInfo ("Image " +:+ image_id +:+ " is deactivated"))))))
    (fun e =>
       match e with
       | NotFound msg => raise (HTTPNotFound msg)
       | Forbidden msg =>
           bind (log (LogDebug ("User not permitted to deactivate image '"
                                +:+ image_id +:+ "'")))
                (fun _ => raise (HTTPForbidden msg))
       | InvalidImageStatusTransition msg => raise (HTTPBadRequest msg)
       | _ => raise e
       end).

Definition reactivate (env : Env) (image_id : string) : Action unit :=
  try_except
    (bind (get env image_id) (fun image =>
     bind (image_dot_reactivate env image) (fun image =>
     bind (save env image) (fun _ =>
     log (LogInfo ("Image " +:+ image_id +:+ " is reactivated"))))))
    (fun e =>
       match e with
       | NotFound msg => raise (HTTPNotFound msg)
       | Forbidden msg =>
           bind (log (LogDebug ("User not permitted to reactivate image '"
                                +:+ image_id +:+ "'")))
                (fun _ => raise (HTTPForbidden msg))
       | InvalidImageStatusTransition msg => raise (HTTPBadRequest msg)
       | _ => raise e
       end).

(** *** Observations *)

(** The two actions of the controller. *)
Inductive action := deactivate_action | reactivate_action.

Definition run (a : action) : Env -> string -> Action unit :=
  match a with
  | deactivate_action => deactivate
  | reactivate_action => reactivate
  end.

Definition transition (a : action) (env : Env) : Image -> result Image :=
  match a with
  | deactivate_action => image_deactivate env
  | reactivate_action => image_reactivate env
  end.

(** One of the three calls in the [try] body raises [e]. *)
Definition raised_in_body (a : action) (env : Env) (image_id : string)
    (s : State) (e : error) : Prop :=
  repo_get env (images s) image_id = Err e \/
  (exists img,
     repo_get env (images s) image_id = Ok img /\
     transition a env img = Err e) \/
  (exists img img',
     repo_get env (images s) image_id = Ok img /\
     transition a env img = Ok img' /\
     repo_save env (images s) img' = Err e).

(** What the [except] clauses answer for an exception of the body. *)
Definition http_error (e : error) : error :=
  match e with
  | NotFound msg => HTTPNotFound msg
  | Forbidden msg => HTTPForbidden msg
  | InvalidImageStatusTransition msg => HTTPBadRequest msg
  | _ => e
  end.

Definition is_domain_error (e : error) : bool :=
  match e with
  | NotFound _ | Forbidden _ | InvalidImageStatusTransition _ => true
  | _ => false
  end.

Definition is_Save (c : call) : bool :=
  match c with Save _ => true | _ => false end.

Definition is_LogInfo (c : call) : bool :=
  match c with LogInfo _ => true | _ => false end.

Definition calls_since (s s' : State) : list call :=
  drop (length (calls s)) (calls s').

(** A repository over the stored images, with a policy that may forbid
    modification, and the transitions between "active" and
    "deactivated". *)
Definition sample_env (may_modify : bool) : Env :=
  mkEnv
    (fun imgs id =>
       match imgs !! id with
       | Some img => Ok img
       | None => Err (NotFound ("No image found with ID " +:+ id))
       end)
    (fun img =>
       if String.eqb (image_status img) "active" then
         Ok (mkImage (image_id img) "deactivated" (locations img))
       else Err (InvalidImageStatusTransition "not active"))
    (fun img =>
       if String.eqb (image_status img) "deactivated" then
         Ok (mkImage (image_id img) "active" (locations img))
       else Err (InvalidImageStatusTransition "not deactivated"))
    (fun imgs img =>
       if may_modify then Ok (<[image_id img := img]> imgs)
       else Err (Forbidden "You are not authorized to complete this action.")).

Definition sample_state : State :=
  mkState {["image-1" := mkImage "image-1" "active" ["location"]]} [].

End ImageActions.

(** ** api/versions.py *)

Module Versions.

Record Request := mkRequest { host_url : string }.

Record Link := mkLink { rel : string; href : string }.

Record VersionObject := mkVersionObject {
  id : string;
  status : string;
  links : list Link
}.

(** The response of the controller; [versions] is the list the body
    serialises under the key "versions". *)
Record Response := mkResponse {
  status_int : Z;
  content_type : string;
  versions : list VersionObject
}.

Definition OK : Z := 200.
Definition MULTIPLE_CHOICES : Z := 300.

(** Python's [x or y] for an option that is unset or a string: [None] and
    the empty string are false. *)
Definition or_else (x : option string) (y : string) : string :=
  match x with
  | Some (String _ _ as u) => u
  | _ => y
  end.

(** Python's [a and b or c] for a boolean [a] and integers [b], [c]: zero
    is false. *)
Definition and_or (a : bool) (b c : Z) : Z :=
  if a then (if (b =? 0)%Z then c else b) else c.

(** [build_version_object] of [index]; [version] is the text "%s" gives
    for the number. *)
Definition build_version_object (public_endpoint : option string)
    (req : Request) (version path status : string) : VersionObject :=
  let url := or_else public_endpoint (host_url req) in
  mkVersionObject ("v" +:+ version) status
    [mkLink "self" (url +:+ "/" +:+ path +:+ "/")].

Definition index (public_endpoint : option string) (req : Request)
    (explicit : bool) : Response :=
  let version_objs :=
    [] ++ [build_version_object public_endpoint req "1.0" "v1" "CURRENT"] in
  let status := and_or explicit OK MULTIPLE_CHOICES in
  mkResponse status "application/json" version_objs.

Definition __call__ (public_endpoint : option string) (req : Request)
    : Response :=
  index public_endpoint req false.

End Versions.

(** * Properties *)

(** ** Running the monad *)

Ltac run_monad :=
  unfold bind, ret, raise, lift, emit, try_except, try_finally,
    save_and_reraise_exception, shutdown;
  cbn [fst snd repos trace task_repo image_repo].

Lemma app_events (l : list event) (a b : event) :
  (l ++ [a]) ++ [b] = l ++ [a; b].
Proof. by rewrite <- app_assoc. Qed.

Lemma events_since_app (w w' : World) (evs : list event) :
  trace w' = trace w ++ evs -> events_since w w' = evs.
Proof.
  intros H. unfold events_since. rewrite H. by rewrite drop_app_length.
Qed.

Lemma get_task_found (id : string) (t : Task) (w : World) :
  task_repo (repos w) !! id = Some t ->
  get_task id w = (mkWorld (repos w) (trace w ++ [RepoGet id]), Return (Some t)).
Proof.
  intros H. unfold get_task, task_repo_get. run_monad. by rewrite H.
Qed.

Lemma get_task_absent (id : string) (w : World) :
  task_repo (repos w) !! id = None ->
  get_task id w =
    (mkWorld (repos w)
       (trace w ++ [RepoGet id;
                    LogException ("Task not found for task_id " +:+ id)]),
     Return None).
Proof.
  intros H. unfold get_task, task_repo_get. run_monad. rewrite H.
  unfold isinstance. cbn [exc_cls issubclass]. rewrite bool_decide_eq_true_2 by done.
  run_monad. by rewrite app_events.
Qed.

(** ** Frame lemmas: resolution and pool acquisition do not read the world *)

Lemma world_eta (w : World) : mkWorld (repos w) (trace w ++ []) = w.
Proof. destruct w. by rewrite app_nil_r. Qed.

Lemma _fetch_an_executor_frame (env : Env) (w : World) :
  _fetch_an_executor env w =
    (mkWorld (repos w) (trace w ++ fetch_events env), fetch_outcome env).
Proof.
  unfold fetch_events, fetch_outcome, _fetch_an_executor,
    GreenThreadPoolExecutor, ThreadPoolExecutor.
  destruct (negb (String.eqb (engine_mode env) "parallel")).
  - run_monad. by rewrite world_eta.
  - run_monad.
    destruct (GreenThreadPoolExecutor_init env (max_workers env)) as [e|];
      run_monad; [|done].
    destruct (isinstance e RuntimeError); run_monad; [|done].
    destruct (ThreadPoolExecutor_init env (max_workers env));
      run_monad; by rewrite app_events.
Qed.

Lemma _get_flow_frame (env : Env) (self : TaskExecutor) (t : Task) (w : World) :
  _get_flow env self t w =
    (mkWorld (repos w) (trace w ++ get_flow_events env self t),
     get_flow_outcome env self t).
Proof.
  unfold get_flow_events, get_flow_outcome, _get_flow. run_monad.
  destruct (unpack_task_input env t) as [inp|e]; run_monad.
  - destruct (validate_location_uri env (inp !! "import_from")) as [uri|e];
      run_monad.
    + destruct (DriverManager env "xmonitor.flows" (type t) _) as [fl|e];
        run_monad; [done|].
      repeat (match goal with |- context [if ?b then _ else _] =>
                destruct b end; run_monad); done.
    + repeat (match goal with |- context [if ?b then _ else _] =>
                destruct b end; run_monad); by rewrite world_eta.
  - repeat (match goal with |- context [if ?b then _ else _] =>
              destruct b end; run_monad); by rewrite world_eta.
Qed.

Lemma get_flow_events_cases (env : Env) (self : TaskExecutor) (t : Task) :
  get_flow_events env self t = [] \/
  get_flow_events env self t = [DriverLoad "xmonitor.flows" (type t)].
Proof.
  unfold get_flow_events, _get_flow. run_monad.
  destruct (unpack_task_input env t) as [inp|e]; run_monad.
  - destruct (validate_location_uri env (inp !! "import_from")) as [uri|e];
      run_monad.
    + destruct (DriverManager env "xmonitor.flows" (type t) _) as [fl|e];
        run_monad; [by right|].
      repeat (match goal with |- context [if ?b then _ else _] =>
                destruct b end; run_monad); by right.
    + repeat (match goal with |- context [if ?b then _ else _] =>
                destruct b end; run_monad); by left.
  - repeat (match goal with |- context [if ?b then _ else _] =>
              destruct b end; run_monad); by left.
Qed.

Lemma fetch_events_cases (env : Env) :
  fetch_events env = [] \/
  fetch_events env = [PoolConstruct GreenThreadPool (max_workers env)] \/
  fetch_events env = [PoolConstruct GreenThreadPool (max_workers env);
                      PoolConstruct NativeThreadPool (max_workers env)].
Proof.
  unfold fetch_events, _fetch_an_executor,
    GreenThreadPoolExecutor, ThreadPoolExecutor.
  destruct (negb (String.eqb (engine_mode env) "parallel")).
  - by left.
  - run_monad.
    destruct (GreenThreadPoolExecutor_init env (max_workers env)) as [e|];
      run_monad; [|by right; left].
    destruct (isinstance e RuntimeError); run_monad; [|by right; left].
    destruct (ThreadPoolExecutor_init env (max_workers env));
      run_monad; by right; right.
Qed.

Lemma get_flow_events_filter (P : event -> bool) (env : Env)
    (self : TaskExecutor) (t : Task) :
  (forall ns name, P (DriverLoad ns name) = false) ->
  filter (fun ev => P ev = true) (get_flow_events env self t) = [].
Proof.
  intros HP. destruct (get_flow_events_cases env self t) as [-> | ->];
    [done|].
  rewrite filter_cons_False, filter_nil; [done|]. by rewrite HP.
Qed.

Lemma fetch_events_filter (P : event -> bool) (env : Env) :
  (forall k n, P (PoolConstruct k n) = false) ->
  filter (fun ev => P ev = true) (fetch_events env) = [].
Proof.
  intros HP. destruct (fetch_events_cases env) as [-> | [-> | ->]];
    [done| |].
  - rewrite filter_cons_False, filter_nil; [done|]. by rewrite HP.
  - rewrite !filter_cons_False, filter_nil; [done| |]; by rewrite HP.
Qed.

(** ** [_run] on a task that is found, path by path *)

Lemma _run_found (env : Env) (self : TaskExecutor) (id ty : string)
    (t : Task) (w : World) :
  task_repo (repos w) !! id = Some t ->
  _run env self id ty w =
    let tr1 := trace w ++ pickup_events id ty ++ get_flow_events env self t in
    match get_flow_outcome env self t with
    | Raise e => (mkWorld (repos w) tr1, Raise e)
    | Return flow =>
        let tr2 := tr1 ++ fetch_events env in
        match fetch_outcome env with
        | Raise e => (mkWorld (repos w) tr2, Raise e)
        | Return executor =>
            let tr3 :=
              tr2 ++ [EngineRun (engine_mode env) executor (max_workers env)] in
            match flow (engine_mode env) executor (max_workers env) (repos w) with
            | (r', None) =>
                (mkWorld r' (tr3 ++ shutdown_events executor), Return tt)
            | (r', Some e) =>
                if isinstance e Exception then
                  (mkWorld
                     (mkRepos
                        (<[task_id t := Task_fail t internal_error_message]>
                           (task_repo r'))
                        (image_repo r'))
                     (tr3 ++
                      [LogError (failed_to_execute id (exc_detail e));
                       RepoSave (Task_fail t internal_error_message)] ++
                      shutdown_events executor),
                   Raise e)
                else (mkWorld r' (tr3 ++ shutdown_events executor), Raise e)
            end
        end
    end.
Proof.
  intros Hget. unfold _run, pickup_events.
  unfold bind at 1. unfold emit at 1. unfold bind at 1.
  rewrite (get_task_found id t) by done.
  cbn [repos trace]. unfold bind at 1. rewrite _get_flow_frame.
  cbn [repos trace].
  destruct (get_flow_outcome env self t) as [flow|e].
  2:{ cbn zeta. by rewrite <- !app_assoc. }
  unfold bind at 1. rewrite _fetch_an_executor_frame. cbn [repos trace].
  destruct (fetch_outcome env) as [executor|e].
  2:{ cbn zeta. by rewrite <- !app_assoc. }
  unfold engine_load_and_run, task_repo_save. run_monad.
  destruct (flow (engine_mode env) executor (max_workers env) (repos w))
    as [r' [e|]].
  - destruct (isinstance e Exception); run_monad;
      destruct executor as [p|]; run_monad; cbn [shutdown_events];
      rewrite <- ?app_assoc; cbn [app]; rewrite ?app_nil_r; done.
  - destruct executor as [p|]; run_monad; cbn [shutdown_events];
      rewrite <- ?app_assoc; cbn [app]; rewrite ?app_nil_r; done.
Qed.

(** ** Dispatch by the base class *)

Lemma super_begin_processing_found (env : Env) (self : TaskExecutor)
    (t : Task) (w : World) :
  task_repo (repos w) !! task_id t = Some t ->
  super_begin_processing env self (task_id t) w =
    _run env self (task_id t) (type t) (dispatched t w).
Proof.
  intros Hget. unfold super_begin_processing.
  unfold bind at 1. rewrite (get_task_found _ t) by done.
  unfold task_repo_save, dispatched. run_monad.
  by rewrite app_events.
Qed.

Lemma dispatched_lookup (t : Task) (w : World) :
  task_repo (repos (dispatched t w)) !! task_id t =
    Some (Task_begin_processing t).
Proof. unfold dispatched. cbn [repos task_repo]. apply lookup_insert_eq. Qed.

Lemma super_begin_processing_absent (env : Env) (self : TaskExecutor)
    (id : string) (w : World) :
  task_repo (repos w) !! id = None ->
  super_begin_processing env self id w =
    (mkWorld (repos w)
       (trace w ++ [RepoGet id;
                    LogException ("Task not found for task_id " +:+ id)]),
     Return tt).
Proof.
  intros Hget. unfold super_begin_processing.
  unfold bind at 1. by rewrite get_task_absent.
Qed.

(** ** A task that is not in the repository *)

Lemma _run_absent (env : Env) (self : TaskExecutor) (id ty : string)
    (w : World) :
  task_repo (repos w) !! id = None ->
  _run env self id ty w =
    (mkWorld (repos w)
       (trace w ++ pickup_events id ty ++
        [LogException ("Task not found for task_id " +:+ id)]),
     Return tt).
Proof.
  intros Habsent. unfold _run.
  unfold bind at 1. unfold emit at 1. unfold bind at 1.
  rewrite get_task_absent by done. unfold ret. cbn [repos trace].
  by rewrite <- app_assoc.
Qed.

(** C5: for a task id that is absent from the task repository,
    [begin_processing] returns without raising, leaves both repositories
    as they were (no record is created) and makes no call that resolves a
    driver, constructs a pool or runs a flow; the same holds of [_run]
    alone. *)
Theorem begin_processing_absent_is_noop (env : Env) (self : TaskExecutor)
    (id ty : string) (w : World) :
  task_repo (repos w) !! id = None ->
  (snd (begin_processing env self id w) = Return tt /\
   repos (fst (begin_processing env self id w)) = repos w /\
   filter (fun ev => is_dispatch_work ev = true)
     (events_since w (fst (begin_processing env self id w))) = []) /\
  (snd (_run env self id ty w) = Return tt /\
   repos (fst (_run env self id ty w)) = repos w /\
   filter (fun ev => is_dispatch_work ev = true)
     (events_since w (fst (_run env self id ty w))) = []).
Proof.
  intros Habsent. split.
  - unfold begin_processing, try_except.
    rewrite super_begin_processing_absent by done. cbn [fst snd repos].
    repeat split.
    by erewrite events_since_app by reflexivity.
  - rewrite _run_absent by done. cbn [fst snd repos].
    repeat split.
    by erewrite events_since_app by reflexivity.
Qed.

Lemma begin_processing_absent_is_noop_witness :
  task_repo (repos sample_world) !! "t2" = None /\
  snd (begin_processing (sample_env "parallel" (Return flow_ok) None None)
         sample_self "t2" sample_world) = Return tt.
Proof.
  split; [reflexivity|].
  apply (begin_processing_absent_is_noop
           (sample_env "parallel" (Return flow_ok) None None)
           sample_self "t2" "import" sample_world).
  reflexivity.
Defined.

(** ** Acquiring a worker pool *)

Lemma _fetch_an_executor_parallel (env : Env) (w : World) :
  engine_mode env = "parallel" ->
  _fetch_an_executor env w =
    try_except
      (p <- GreenThreadPoolExecutor env (max_workers env) ;; ret (Some p))
      (fun exc =>
         if isinstance exc RuntimeError then
           p <- ThreadPoolExecutor env (max_workers env) ;; ret (Some p)
         else raise exc) w.
Proof. intros Hmode. unfold _fetch_an_executor. by rewrite Hmode. Qed.

(** C8: pool acquisition follows the configured mode.  In serial mode no
    pool is constructed and the executor is [None].  In parallel mode the
    cooperative pool is constructed first, bounded by [max_workers]; when
    that construction raises a [RuntimeError], a thread-backed pool with
    the same bound is constructed instead. *)
Theorem fetch_an_executor_follows_mode (env : Env) (w : World) :
  (engine_mode env = "serial" ->
   _fetch_an_executor env w = (w, Return None)) /\
  (engine_mode env = "parallel" ->
   (GreenThreadPoolExecutor_init env (max_workers env) = None ->
    _fetch_an_executor env w =
      (mkWorld (repos w)
         (trace w ++ [PoolConstruct GreenThreadPool (max_workers env)]),
       Return (Some (mkPool GreenThreadPool (max_workers env))))) /\
   (forall e,
      GreenThreadPoolExecutor_init env (max_workers env) = Some e ->
      isinstance e RuntimeError = true ->
      ThreadPoolExecutor_init env (max_workers env) = None ->
      _fetch_an_executor env w =
        (mkWorld (repos w)
           (trace w ++ [PoolConstruct GreenThreadPool (max_workers env);
                        PoolConstruct NativeThreadPool (max_workers env)]),
         Return (Some (mkPool NativeThreadPool (max_workers env)))))).
Proof.
  split.
  - intros Hmode. unfold _fetch_an_executor. by rewrite Hmode.
  - intros Hmode. split.
    + intros Hgreen. rewrite _fetch_an_executor_parallel by done.
      unfold GreenThreadPoolExecutor. run_monad. by rewrite Hgreen.
    + intros e Hgreen Hrt Hnative.
      rewrite _fetch_an_executor_parallel by done.
      unfold GreenThreadPoolExecutor, ThreadPoolExecutor. run_monad.
      rewrite Hgreen. run_monad. rewrite Hrt. run_monad.
      rewrite Hnative. run_monad. by rewrite app_events.
Qed.

Lemma fetch_an_executor_follows_mode_witness :
  _fetch_an_executor (sample_env "serial" (Return flow_ok) None None)
    sample_world = (sample_world, Return None) /\
  snd (_fetch_an_executor
         (sample_env "parallel" (Return flow_ok) None None) sample_world) =
    Return (Some (mkPool GreenThreadPool 10)) /\
  snd (_fetch_an_executor
         (sample_env "parallel" (Return flow_ok) (Some no_eventlet) None)
         sample_world) =
    Return (Some (mkPool NativeThreadPool 10)).
Proof.
  split; [|split].
  - apply (fetch_an_executor_follows_mode
             (sample_env "serial" (Return flow_ok) None None) sample_world).
    reflexivity.
  - rewrite (proj1 (proj2 (fetch_an_executor_follows_mode
             (sample_env "parallel" (Return flow_ok) None None) sample_world)
             eq_refl) eq_refl).
    reflexivity.
  - rewrite (proj2 (proj2 (fetch_an_executor_follows_mode
             (sample_env "parallel" (Return flow_ok) (Some no_eventlet) None)
             sample_world) eq_refl) no_eventlet eq_refl eq_refl eq_refl).
    reflexivity.
Defined.

Lemma _fetch_an_executor_parallel_cases (env : Env) (w : World) :
  engine_mode env = "parallel" ->
  _fetch_an_executor env w =
    let n := max_workers env in
    match GreenThreadPoolExecutor_init env n with
    | None =>
        (mkWorld (repos w) (trace w ++ [PoolConstruct GreenThreadPool n]),
         Return (Some (mkPool GreenThreadPool n)))
    | Some e =>
        if isinstance e RuntimeError then
          (mkWorld (repos w)
             (trace w ++ [PoolConstruct GreenThreadPool n;
                          PoolConstruct NativeThreadPool n]),
           match ThreadPoolExecutor_init env n with
           | None => Return (Some (mkPool NativeThreadPool n))
           | Some e' => Raise e'
           end)
        else
          (mkWorld (repos w) (trace w ++ [PoolConstruct GreenThreadPool n]),
           Raise e)
    end.
Proof.
  intros Hmode. rewrite _fetch_an_executor_parallel by done.
  unfold GreenThreadPoolExecutor, ThreadPoolExecutor. run_monad.
  destruct (GreenThreadPoolExecutor_init env (max_workers env)) as [e|];
    run_monad; [|done].
  destruct (isinstance e RuntimeError); run_monad; [|done].
  destruct (ThreadPoolExecutor_init env (max_workers env));
    run_monad; by rewrite app_events.
Qed.

(** C10: in parallel mode the thread-backed pool is constructed exactly
    when the construction of the cooperative pool raised a
    [RuntimeError].  Any other exception of the pool construction (another
    class from the cooperative pool, or whatever the fallback construction
    raises) leaves [_run] as it is, with the repositories untouched and
    nothing saved: the task is not marked failure. *)
Theorem pool_fallback_only_on_RuntimeError (env : Env) (self : TaskExecutor)
    (id ty : string) (t : Task) (w : World) (flow : Flow) :
  engine_mode env = "parallel" ->
  (PoolConstruct NativeThreadPool (max_workers env)
     ∈ events_since w (fst (_fetch_an_executor env w)) <->
   exists e,
     GreenThreadPoolExecutor_init env (max_workers env) = Some e /\
     isinstance e RuntimeError = true) /\
  (task_repo (repos w) !! id = Some t ->
   get_flow_outcome env self t = Return flow ->
   forall e,
     (GreenThreadPoolExecutor_init env (max_workers env) = Some e /\
      isinstance e RuntimeError = false) \/
     (exists e0,
        GreenThreadPoolExecutor_init env (max_workers env) = Some e0 /\
        isinstance e0 RuntimeError = true /\
        ThreadPoolExecutor_init env (max_workers env) = Some e) ->
     snd (_run env self id ty w) = Raise e /\
     repos (fst (_run env self id ty w)) = repos w /\
     filter (fun ev => is_RepoSave ev = true)
       (events_since w (fst (_run env self id ty w))) = []).
Proof.
  intros Hmode. split.
  - rewrite _fetch_an_executor_parallel_cases by done. cbn zeta.
    destruct (GreenThreadPoolExecutor_init env (max_workers env)) as [e|].
    + destruct (isinstance e RuntimeError) eqn:Hrt; cbn [fst].
      * erewrite events_since_app by reflexivity. split; [eauto|].
        intros _. set_solver.
      * erewrite events_since_app by reflexivity. split.
        -- intros Hin. apply list_elem_of_singleton in Hin. discriminate.
        -- intros (e' & [= <-] & He'). congruence.
    + cbn [fst]. erewrite events_since_app by reflexivity. split.
      * intros Hin. apply list_elem_of_singleton in Hin. discriminate.
      * intros (e' & [=] & _).
  - intros Hget Hflow e Hpool.
    assert (Hfetch : exists evs,
               _fetch_an_executor env initial_world =
                 (mkWorld (repos initial_world) (trace initial_world ++ evs),
                  Raise e) /\
               filter (fun ev => is_RepoSave ev = true) evs = []).
    { rewrite _fetch_an_executor_parallel_cases by done. cbn zeta.
      destruct Hpool as [[Hg Hrt]|(e0 & Hg & Hrt & Hn)];
        rewrite Hg, Hrt; [|rewrite Hn]; eexists; split; done. }
    destruct Hfetch as (evs & Hfetch & Hevs).
    rewrite (_run_found env self id ty t) by done. cbn zeta.
    rewrite Hflow. unfold fetch_outcome, fetch_events. rewrite Hfetch.
    cbn [fst snd repos trace initial_world app]. repeat split.
    rewrite <- !app_assoc.
    erewrite events_since_app by reflexivity.
    rewrite !filter_app, Hevs, get_flow_events_filter by done. done.
Qed.

Lemma pool_fallback_only_on_RuntimeError_witness :
  engine_mode
    (sample_env "parallel" (Return flow_ok)
       (Some (Exn Exception "Max workers must be greater than zero")) None) =
    "parallel" /\
  snd (_run
         (sample_env "parallel" (Return flow_ok)
            (Some (Exn Exception "Max workers must be greater than zero"))
            None)
         sample_self "t1" "import" sample_world) =
    Raise (Exn Exception "Max workers must be greater than zero").
Proof.
  split; [reflexivity|].
  apply (proj2 (pool_fallback_only_on_RuntimeError
                  (sample_env "parallel" (Return flow_ok)
                     (Some (Exn Exception
                              "Max workers must be greater than zero"))
                     None)
                  sample_self "t1" "import" sample_task sample_world flow_ok
                  eq_refl) eq_refl eq_refl
               (Exn Exception "Max workers must be greater than zero")
               (or_introl (conj eq_refl eq_refl))).
Defined.

(** ** [begin_processing] on a task that is found *)

Lemma ImportTaskError_is_Exception (e : exn) :
  isinstance e ImportTaskError = true -> isinstance e Exception = true.
Proof.
  unfold isinstance. destruct (exc_cls e); cbn; done.
Qed.

Lemma NotAuthenticated_is_Exception (e : exn) :
  isinstance e NotAuthenticated = true -> isinstance e Exception = true.
Proof.
  unfold isinstance. destruct (exc_cls e); cbn; done.
Qed.

Lemma begin_processing_found (env : Env) (self : TaskExecutor) (t : Task)
    (w : World) :
  task_repo (repos w) !! task_id t = Some t ->
  begin_processing env self (task_id t) w =
    match _run env self (task_id t) (type t) (dispatched t w) with
    | (w', Return a) => (w', Return a)
    | (w', Raise e) =>
        if isinstance e ImportTaskError then
          match task_repo (repos w') !! task_id t with
          | Some cur => (failure_recorded (task_id t) cur e w', Return tt)
          | None =>
              (mkWorld (repos w')
                 (trace w' ++
                  [LogError (failed_to_execute (task_id t) (exc_detail e));
                   RepoGet (task_id t)]),
               Raise (Exn NotFound (task_id t)))
          end
        else (w', Raise e)
    end.
Proof.
  intros Hget. unfold begin_processing, try_except.
  rewrite super_begin_processing_found by done.
  destruct (_run env self (task_id t) (type t) (dispatched t w))
    as [w' [a|e]]; [done|].
  destruct (isinstance e ImportTaskError); [|done].
  unfold task_repo_get, task_repo_save, failure_recorded. run_monad.
  destruct (task_repo (repos w') !! task_id t) as [cur|];
    cbn [repos trace task_repo image_repo task_id Task_fail];
    by rewrite <- !app_assoc.
Qed.

(** ** Releasing the pool *)

Ltac since_trace :=
  unfold failure_recorded, dispatched;
  cbn [fst snd repos trace];
  rewrite <- ?app_assoc;
  erewrite events_since_app by reflexivity.

Ltac before_engine env self t :=
  exists ([RepoGet (task_id t); RepoSave (Task_begin_processing t)] ++
          pickup_events (task_id t) (type t) ++
          get_flow_events env self (Task_begin_processing t) ++
          fetch_events env).

Ltac no_such_events :=
  rewrite ?filter_app, ?get_flow_events_filter, ?fetch_events_filter by done;
  done.

(** C9: when a run of [begin_processing] acquired a pool, the pool is shut
    down exactly once, after the engine was started, whatever the flow
    does: complete, raise an [Exception], or raise anything else. *)
Theorem pool_released_on_every_exit (env : Env) (self : TaskExecutor)
    (t : Task) (w : World) (flow : Flow) (p : Pool) :
  task_repo (repos w) !! task_id t = Some t ->
  get_flow_outcome env self (Task_begin_processing t) = Return flow ->
  fetch_outcome env = Return (Some p) ->
  (exists pre mid post,
     events_since w (fst (begin_processing env self (task_id t) w)) =
       pre ++ EngineRun (engine_mode env) (Some p) (max_workers env)
           :: mid ++ PoolShutdown p :: post) /\
  filter (fun ev => is_PoolShutdown ev = true)
    (events_since w (fst (begin_processing env self (task_id t) w))) =
    [PoolShutdown p].
Proof.
  intros Hget Hflow Hfetch.
  rewrite begin_processing_found by done.
  rewrite (_run_found env self _ _ (Task_begin_processing t))
    by apply dispatched_lookup.
  cbn zeta. rewrite Hflow, Hfetch.
  destruct (flow (engine_mode env) (Some p) (max_workers env)
              (repos (dispatched t w))) as [r' [e|]].
  - destruct (isinstance e Exception) eqn:HE.
    + destruct (isinstance e ImportTaskError).
      * cbn [repos task_repo task_id Task_begin_processing].
        rewrite lookup_insert_eq. since_trace. split.
        -- before_engine env self t. eexists [_; _], _.
           rewrite <- ?app_assoc. reflexivity.
        -- no_such_events.
      * since_trace. split.
        -- before_engine env self t. eexists [_; _], _.
           rewrite <- ?app_assoc. reflexivity.
        -- no_such_events.
    + destruct (isinstance e ImportTaskError) eqn:HI.
      { apply ImportTaskError_is_Exception in HI. congruence. }
      since_trace. split.
      * before_engine env self t. eexists [], _.
        rewrite <- ?app_assoc. reflexivity.
      * no_such_events.
  - since_trace. split.
    + before_engine env self t. eexists [], _.
      rewrite <- ?app_assoc. reflexivity.
    + no_such_events.
Qed.

Lemma pool_released_on_every_exit_witness :
  task_repo (repos sample_world) !! task_id sample_task = Some sample_task /\
  filter (fun ev => is_PoolShutdown ev = true)
    (events_since sample_world
       (fst (begin_processing
               (sample_env "parallel"
                  (Return (flow_raising keyboard_interrupt)) None None)
               sample_self (task_id sample_task) sample_world))) =
    [PoolShutdown (mkPool GreenThreadPool 10)].
Proof.
  split; [reflexivity|].
  apply (pool_released_on_every_exit
           (sample_env "parallel"
              (Return (flow_raising keyboard_interrupt)) None None)
           sample_self sample_task sample_world
           (flow_raising keyboard_interrupt) (mkPool GreenThreadPool 10));
    reflexivity.
Defined.

(** ** Failures before the flow runs *)

Lemma get_flow_outcome_raised (env : Env) (self : TaskExecutor) (t : Task)
    (e : exn) :
  raised_before_flow env self t e ->
  get_flow_outcome env self t =
    if isinstance e URLError then Raise (Exn ImportTaskError (exc_detail e))
    else if isinstance e BadStoreUri || isinstance e Invalid then
      Raise (Exn ImportTaskError (exc_detail e))
    else if isinstance e RuntimeError then Raise (Exn NotImplementedError "")
    else Raise e.
Proof.
  unfold get_flow_outcome, _get_flow.
  intros [Hu | [(inp & Hu & Hv) | (inp & uri & Hu & Hv & Hd)]];
    run_monad; rewrite Hu; run_monad; [|rewrite Hv; run_monad..];
    [| |rewrite Hd; run_monad];
    repeat (match goal with |- context [if ?b then _ else _] =>
              destruct b end; run_monad); done.
Qed.

Lemma validation_error_outcome (env : Env) (self : TaskExecutor) (t : Task)
    (e : exn) :
  raised_before_flow env self t e ->
  validation_error e = true ->
  exists e',
    get_flow_outcome env self t = Raise e' /\
    isinstance e' ImportTaskError = true /\
    exc_detail e' = exc_detail e.
Proof.
  intros Hraised Hval. rewrite (get_flow_outcome_raised env self t e) by done.
  unfold validation_error, isinstance in *.
  destruct e as [c d]. cbn [exc_cls exc_detail] in *.
  destruct c; cbn in Hval |- *; try discriminate; eauto.
Qed.

(** C2: when unpacking the input, validating the source location or
    loading the driver raises a validation error ([URLError],
    [BadStoreUri], [Invalid], or an [ImportTaskError] as such),
    [begin_processing] returns without raising; the record of the task is
    saved with status [failure] and the message of that error, and that
    save is the last call of the run. *)
Theorem validation_failure_is_recorded (env : Env) (self : TaskExecutor)
    (t : Task) (w : World) (e : exn) :
  task_repo (repos w) !! task_id t = Some t ->
  raised_before_flow env self (Task_begin_processing t) e ->
  validation_error e = true ->
  snd (begin_processing env self (task_id t) w) = Return tt /\
  task_record (fst (begin_processing env self (task_id t) w)) (task_id t) =
    Some (mkTask (task_id t) (type t) failure (task_input t) (exc_detail e)
                 (owner_context t)) /\
  last (events_since w (fst (begin_processing env self (task_id t) w))) =
    Some (RepoSave
            (mkTask (task_id t) (type t) failure (task_input t)
                    (exc_detail e) (owner_context t))).
Proof.
  intros Hget Hraised Hval.
  destruct (validation_error_outcome env self _ e Hraised Hval)
    as (e' & Hout & Hcls & Hdetail).
  rewrite begin_processing_found by done.
  rewrite (_run_found env self _ _ (Task_begin_processing t))
    by apply dispatched_lookup.
  cbn zeta. rewrite Hout, Hcls.
  replace (task_repo (repos (dispatched t w)) !! task_id t)
    with (Some (Task_begin_processing t))
    by (symmetry; apply dispatched_lookup).
  cbn [fst snd]. split; [done|]. split.
  - unfold task_record, failure_recorded.
    cbn [repos task_repo task_id Task_begin_processing].
    rewrite lookup_insert_eq, Hdetail. reflexivity.
  - since_trace. rewrite Hdetail.
    rewrite !last_app. reflexivity.
Qed.

Lemma validation_failure_is_recorded_witness :
  task_repo (repos sample_world) !! task_id sample_task = Some sample_task /\
  raised_before_flow
    (mkEnv "parallel" 10 sample_unpack
       (fun _ => Raise (Exn URLError "unknown url type: blahhttp"))
       (fun _ _ _ => Return flow_ok) (fun _ => None) (fun _ => None))
    sample_self (Task_begin_processing sample_task)
    (Exn URLError "unknown url type: blahhttp") /\
  snd (begin_processing
         (mkEnv "parallel" 10 sample_unpack
            (fun _ => Raise (Exn URLError "unknown url type: blahhttp"))
            (fun _ _ _ => Return flow_ok) (fun _ => None) (fun _ => None))
         sample_self (task_id sample_task) sample_world) = Return tt.
Proof.
  assert (Hraised :
    raised_before_flow
      (mkEnv "parallel" 10 sample_unpack
         (fun _ => Raise (Exn URLError "unknown url type: blahhttp"))
         (fun _ _ _ => Return flow_ok) (fun _ => None) (fun _ => None))
      sample_self (Task_begin_processing sample_task)
      (Exn URLError "unknown url type: blahhttp")).
  { right. left. eexists. split; reflexivity. }
  split; [reflexivity|]. split; [exact Hraised|].
  apply (validation_failure_is_recorded _ sample_self sample_task
           sample_world (Exn URLError "unknown url type: blahhttp")
           eq_refl Hraised eq_refl).
Defined.

(** ** A driver that cannot be constructed *)

(** C3, the claim as stated fails: with no driver registered for the
    type, the load raises a [RuntimeError]; [begin_processing] raises
    [NotImplementedError] and the record stays in [processing] with an
    empty message instead of ending in [failure]. *)
Lemma unregistered_driver_leaves_task_processing :
  raised_before_flow
    (sample_env "parallel" (Raise no_driver) None None) sample_self
    (Task_begin_processing sample_task) no_driver /\
  snd (begin_processing (sample_env "parallel" (Raise no_driver) None None)
         sample_self "t1" sample_world) =
    Raise (Exn NotImplementedError "") /\
  (fun t => (status t, message t)) <$>
    task_record
      (fst (begin_processing
              (sample_env "parallel" (Raise no_driver) None None)
              sample_self "t1" sample_world)) "t1" =
    Some (processing, "") /\
  ~ (status <$>
       task_record
         (fst (begin_processing
                 (sample_env "parallel" (Raise no_driver) None None)
                 sample_self "t1" sample_world)) "t1" =
     Some failure).
Proof.
  split; [|split; [|split]].
  - right. right. eexists _, _. repeat split; reflexivity.
  - reflexivity.
  - reflexivity.
  - intros H. vm_compute in H. discriminate.
Qed.

(** C3, as amended: when unpacking, validating or loading the driver
    raises a [RuntimeError], [_get_flow] raises a bare
    [NotImplementedError] whatever the detail of the original, and
    [begin_processing] lets it through to its caller.  The record keeps
    the [processing] status it was dispatched with, no pool is constructed
    and no flow runs, and the image repository is untouched. *)
Theorem driver_failure_raises_NotImplementedError (env : Env)
    (self : TaskExecutor) (t : Task) (w : World) (e : exn) :
  task_repo (repos w) !! task_id t = Some t ->
  raised_before_flow env self (Task_begin_processing t) e ->
  isinstance e RuntimeError = true ->
  get_flow_outcome env self (Task_begin_processing t) =
    Raise (Exn NotImplementedError "") /\
  snd (begin_processing env self (task_id t) w) =
    Raise (Exn NotImplementedError "") /\
  task_record (fst (begin_processing env self (task_id t) w)) (task_id t) =
    Some (Task_begin_processing t) /\
  image_repo (repos (fst (begin_processing env self (task_id t) w))) =
    image_repo (repos w) /\
  filter (fun ev => match ev with
                    | PoolConstruct _ _ | EngineRun _ _ _ => true
                    | _ => false
                    end = true)
    (events_since w (fst (begin_processing env self (task_id t) w))) = [].
Proof.
  intros Hget Hraised Hrt.
  assert (Hout : get_flow_outcome env self (Task_begin_processing t) =
                   Raise (Exn NotImplementedError "")).
  { rewrite (get_flow_outcome_raised env self _ e) by done.
    unfold isinstance in *. destruct (exc_cls e); cbn in Hrt |- *;
      done. }
  split; [done|].
  rewrite begin_processing_found by done.
  rewrite (_run_found env self _ _ (Task_begin_processing t))
    by apply dispatched_lookup.
  cbn zeta. rewrite Hout. cbn [isinstance exc_cls issubclass].
  rewrite bool_decide_eq_false_2 by done. cbn [fst snd].
  split; [done|]. split; [apply dispatched_lookup|]. split; [done|].
  since_trace.
  rewrite ?filter_app, get_flow_events_filter by done. done.
Qed.

Lemma driver_failure_raises_NotImplementedError_witness :
  task_repo (repos sample_world) !! task_id sample_task = Some sample_task /\
  isinstance no_driver RuntimeError = true /\
  snd (begin_processing (sample_env "serial" (Raise no_driver) None None)
         sample_self (task_id sample_task) sample_world) =
    Raise (Exn NotImplementedError "").
Proof.
  split; [reflexivity|]. split; [reflexivity|].
  apply (driver_failure_raises_NotImplementedError
           (sample_env "serial" (Raise no_driver) None None)
           sample_self sample_task sample_world no_driver eq_refl).
  - right. right. eexists _, _. repeat split; reflexivity.
  - reflexivity.
Defined.

(** ** What reaches the caller of [begin_processing] *)

(** C1, the claim as stated fails: a flow that ends with an exception
    makes [begin_processing] raise that exception to its caller. *)
Lemma begin_processing_raises_flow_exception :
  snd (begin_processing
         (sample_env "parallel"
            (Return (flow_raising (Exn Exception "boom"))) None None)
         sample_self "t1" sample_world) =
    Raise (Exn Exception "boom") /\
  snd (begin_processing
         (sample_env "parallel"
            (Return (flow_raising (Exn Exception "boom"))) None None)
         sample_self "t1" sample_world) <> Return tt.
Proof. split; [reflexivity|]. intros H. vm_compute in H. discriminate. Qed.

(** C1, as amended: [begin_processing] returns without raising for a task
    that is absent, for a flow that completes, and when the resolution of
    the flow ends with an [ImportTaskError], which its handler records on
    the task (status [failure], the message of the error).  An exception
    of any other class that leaves the resolution of the flow, the
    construction of the pool or the running flow is raised to the caller;
    when it comes from the running flow and is an instance of
    [Exception], the record is in status [failure] by then. *)
Theorem begin_processing_raises_unless_ImportTaskError (env : Env)
    (self : TaskExecutor) (w : World) :
  (forall id,
     task_repo (repos w) !! id = None ->
     snd (begin_processing env self id w) = Return tt) /\
  (forall t,
     task_repo (repos w) !! task_id t = Some t ->
     (forall e,
        get_flow_outcome env self (Task_begin_processing t) = Raise e ->
        (isinstance e ImportTaskError = true ->
         snd (begin_processing env self (task_id t) w) = Return tt /\
         task_record (fst (begin_processing env self (task_id t) w))
           (task_id t) =
           Some (mkTask (task_id t) (type t) failure (task_input t)
                        (exc_detail e) (owner_context t))) /\
        (isinstance e ImportTaskError = false ->
         snd (begin_processing env self (task_id t) w) = Raise e)) /\
     (forall flow e,
        get_flow_outcome env self (Task_begin_processing t) = Return flow ->
        fetch_outcome env = Raise e ->
        isinstance e ImportTaskError = false ->
        snd (begin_processing env self (task_id t) w) = Raise e) /\
     (forall flow executor,
        get_flow_outcome env self (Task_begin_processing t) = Return flow ->
        fetch_outcome env = Return executor ->
        match snd (flow (engine_mode env) executor (max_workers env)
                     (repos (dispatched t w))) with
        | None => snd (begin_processing env self (task_id t) w) = Return tt
        | Some e =>
            isinstance e ImportTaskError = false ->
            snd (begin_processing env self (task_id t) w) = Raise e /\
            (isinstance e Exception = true ->
             status <$>
               task_record (fst (begin_processing env self (task_id t) w))
                 (task_id t) = Some failure)
        end)).
Proof.
  split.
  - intros id Habsent. unfold begin_processing, try_except.
    by rewrite super_begin_processing_absent.
  - intros t Hget.
    rewrite begin_processing_found by done.
    rewrite (_run_found env self _ _ (Task_begin_processing t))
      by apply dispatched_lookup.
    cbn zeta.
    pose proof (dispatched_lookup t w) as Hdisp.
    split; [|split].
    + intros e ->. split.
      * intros ->. cbn [repos]. rewrite Hdisp. cbn [fst snd].
        split; [done|].
        unfold task_record, failure_recorded.
        cbn [repos task_repo task_id Task_begin_processing].
        by rewrite lookup_insert_eq.
      * by intros ->.
    + by intros flow e -> -> ->.
    + intros flow executor -> ->.
      destruct (flow (engine_mode env) executor (max_workers env)
                  (repos (dispatched t w))) as [r' [e|]]; [|done].
      cbn [snd]. intros HI.
      destruct (isinstance e Exception) eqn:HE; rewrite HI; cbn [fst snd].
      * split; [done|]. intros _. unfold task_record.
        cbn [repos task_repo]. by rewrite lookup_insert_eq.
      * split; [done|]. discriminate.
Qed.

Lemma begin_processing_raises_unless_ImportTaskError_witness :
  task_repo (repos sample_world) !! task_id sample_task = Some sample_task /\
  get_flow_outcome
    (sample_env "parallel" (Raise (Exn Invalid "bad import_from")) None None)
    sample_self (Task_begin_processing sample_task) =
    Raise (Exn ImportTaskError "bad import_from") /\
  snd (begin_processing
         (sample_env "parallel" (Raise (Exn Invalid "bad import_from"))
            None None)
         sample_self (task_id sample_task) sample_world) = Return tt.
Proof.
  split; [reflexivity|]. split; [reflexivity|].
  exact (proj1 (proj1 (proj1 (proj2
           (begin_processing_raises_unless_ImportTaskError
              (sample_env "parallel" (Raise (Exn Invalid "bad import_from"))
                 None None)
              sample_self sample_world) sample_task eq_refl)
           (Exn ImportTaskError "bad import_from") eq_refl) eq_refl)).
Defined.

(** ** An exception out of the running flow *)

(** C4, the claim as stated fails: an exception of the flow that is not
    an instance of [Exception] (a [KeyboardInterrupt], say) passes the
    [except Exception] clause; nothing is saved and the record is not
    marked failure. *)
Lemma keyboard_interrupt_is_not_recorded :
  snd (_run
         (sample_env "serial"
            (Return (flow_raising keyboard_interrupt)) None None)
         sample_self "t1" "import" sample_world) =
    Raise keyboard_interrupt /\
  filter (fun ev => is_RepoSave ev = true)
    (events_since sample_world
       (fst (_run
               (sample_env "serial"
                  (Return (flow_raising keyboard_interrupt)) None None)
               sample_self "t1" "import" sample_world))) = [] /\
  ~ (status <$>
       task_record
         (fst (_run
                 (sample_env "serial"
                    (Return (flow_raising keyboard_interrupt)) None None)
                 sample_self "t1" "import" sample_world)) "t1" =
     Some failure).
Proof.
  split; [reflexivity|]. split; [reflexivity|].
  intros H. vm_compute in H. discriminate.
Qed.

(** C4, as amended: for every exception of the running flow that is an
    instance of [Exception], [_run] logs the error with the detail of the
    exception, saves the record with status [failure] and the fixed
    message "Task failed due to Internal Error", releases the pool and
    raises the exception again; the saved message does not depend on the
    exception. *)
Theorem flow_exception_is_recorded_as_internal_error (env : Env)
    (self : TaskExecutor) (ty : string) (t : Task) (w : World) (flow : Flow)
    (executor : option Pool) (r' : Repos) (e : exn) :
  task_repo (repos w) !! task_id t = Some t ->
  get_flow_outcome env self t = Return flow ->
  fetch_outcome env = Return executor ->
  flow (engine_mode env) executor (max_workers env) (repos w) = (r', Some e) ->
  isinstance e Exception = true ->
  snd (_run env self (task_id t) ty w) = Raise e /\
  task_record (fst (_run env self (task_id t) ty w)) (task_id t) =
    Some (mkTask (task_id t) (type t) failure (task_input t)
                 "Task failed due to Internal Error" (owner_context t)) /\
  exists pre,
    events_since w (fst (_run env self (task_id t) ty w)) =
      pre ++
      [LogError (failed_to_execute (task_id t) (exc_detail e));
       RepoSave (mkTask (task_id t) (type t) failure (task_input t)
                        "Task failed due to Internal Error"
                        (owner_context t))] ++
      shutdown_events executor.
Proof.
  intros Hget Hflow Hfetch Hrun HE.
  rewrite (_run_found env self _ _ t) by done.
  cbn zeta. rewrite Hflow, Hfetch, Hrun, HE. cbn [fst snd].
  split; [done|]. split.
  - unfold task_record. cbn [repos task_repo]. by rewrite lookup_insert_eq.
  - since_trace.
    exists (pickup_events (task_id t) ty ++ get_flow_events env self t ++
            fetch_events env ++
            [EngineRun (engine_mode env) executor (max_workers env)]).
    rewrite <- ?app_assoc. reflexivity.
Qed.

Lemma flow_exception_is_recorded_as_internal_error_witness :
  task_repo (repos sample_world) !! task_id sample_task = Some sample_task /\
  isinstance (Exn NotAuthenticated "expired token") Exception = true /\
  snd (_run
         (sample_env "parallel"
            (Return (flow_raising (Exn NotAuthenticated "expired token")))
            (Some no_eventlet) None)
         sample_self (task_id sample_task) "import" sample_world) =
    Raise (Exn NotAuthenticated "expired token").
Proof.
  split; [reflexivity|]. split; [reflexivity|].
  apply (flow_exception_is_recorded_as_internal_error
           (sample_env "parallel"
              (Return (flow_raising (Exn NotAuthenticated "expired token")))
              (Some no_eventlet) None)
           sample_self "import" sample_task sample_world
           (flow_raising (Exn NotAuthenticated "expired token"))
           (Some (mkPool NativeThreadPool 10)) (repos sample_world)
           (Exn NotAuthenticated "expired token"));
    reflexivity.
Defined.

(** ** The import script *)

Ltac run_import :=
  unfold bind, ret, raise, lift, record, try_except,
    save_and_reraise_exception;
  cbn [fst snd images gets saves calls image_id image_status locations].

Lemma calls_since_app (w w' : ImportWorld) (evs : list import_event) :
  calls w' = calls w ++ evs -> calls_since w w' = evs.
Proof.
  intros H. unfold calls_since. rewrite H. by rewrite drop_app_length.
Qed.

Lemma for_each_delete (id : string) (locs : list string) (w : ImportWorld) :
  for_each locs (delete_image_location_from_backend id) w =
    (mkImportWorld (images w) (gets w) (saves w)
       (calls w ++ map (StoreDelete id) locs),
     Return tt).
Proof.
  revert w. induction locs as [|l locs IH]; intros w.
  - cbn. unfold ret. rewrite app_nil_r. by destruct w.
  - cbn [for_each map]. unfold bind, delete_image_location_from_backend,
      record. rewrite IH. cbn [images gets saves calls].
    by rewrite <- app_assoc.
Qed.

Lemma filter_StoreDelete_map (id : string) (locs : list string) :
  filter (fun ev => is_StoreDelete ev = true) (map (StoreDelete id) locs) =
    map (StoreDelete id) locs.
Proof.
  induction locs as [|l locs IH]; [done|].
  cbn [map]. rewrite filter_cons_True by done. by rewrite IH.
Qed.

Lemma import_image_after_transfer (env : ImportEnv)
    (props : gmap string string) (uri : string) (w : ImportWorld)
    (written : list string) :
  save_fault env (saves w) = None ->
  get_fault env (gets w) = None ->
  store_write env (provisional_image env props) uri = Return written ->
  import_image env props uri w =
    let id := image_id (new_image env props) in
    let new_image := transferred_image env props written in
    try_except
      (_ <- image_repo_get env id ;;
       image_repo_save env new_image ;;;
       ret id)
      (fun exc =>
         if isinstance exc NotAuthenticated then
           save_and_reraise_exception exc
             (for_each (locations new_image)
                (delete_image_location_from_backend id))
         else raise exc)
      (mkImportWorld
         (<[id := provisional_image env props]> (images w))
         (S (gets w)) (S (saves w))
         (calls w ++ calls_up_to_transfer env props uri)).
Proof.
  intros Hsave Hget Hwrite.
  unfold import_image, create_image, set_image_data.
  unfold bind at 1. unfold bind at 1. unfold record at 1. unfold ret at 1.
  unfold bind at 1. unfold image_repo_save at 1. unfold bind at 1.
  unfold record at 1. cbn [images gets saves calls image_id].
  rewrite Hsave.
  unfold bind at 1. unfold image_repo_get at 1. unfold bind at 1.
  unfold record at 1. cbn [images gets saves calls image_id].
  rewrite Hget, lookup_insert_eq.
  unfold bind at 1. unfold bind at 1. unfold record at 1.
  unfold bind at 1. unfold lift at 1.
  fold (provisional_image env props). rewrite Hwrite.
  unfold ret at 1. cbn [images gets saves calls image_id locations].
  unfold calls_up_to_transfer, transferred_image.
  rewrite <- !app_assoc. reflexivity.
Qed.

(** C6: when the transfer succeeded and the reload of the image, or the
    save that follows it, raises an authorization failure, [import_image]
    deletes the locations of the in-memory record, one delete per
    location and in their order, as its last calls, and then raises that
    same failure.  The deleted locations include the ones the transfer
    wrote, which the record in the repository does not have.  A flow that
    ends with that failure makes [_run] leave the task in status [failure]
    and raise the failure again. *)
Theorem expired_authorization_cleans_up (env : ImportEnv)
    (props : gmap string string) (uri : string) (w : ImportWorld)
    (written : list string) (e : exn) :
  save_fault env (saves w) = None ->
  get_fault env (gets w) = None ->
  store_write env (provisional_image env props) uri = Return written ->
  get_fault env (S (gets w)) = Some e \/
  (get_fault env (S (gets w)) = None /\
   save_fault env (S (saves w)) = Some e) ->
  isinstance e NotAuthenticated = true ->
  let id := image_id (new_image env props) in
  let deleted := locations (new_image env props) ++ written in
  snd (import_image env props uri w) = Raise e /\
  filter (fun ev => is_StoreDelete ev = true)
    (calls_since w (fst (import_image env props uri w))) =
    map (StoreDelete id) deleted /\
  (exists pre,
     calls_since w (fst (import_image env props uri w)) =
       calls_up_to_transfer env props uri ++ pre ++
       map (StoreDelete id) deleted) /\
  images (fst (import_image env props uri w)) !! id =
    Some (provisional_image env props) /\
  (forall (xenv : Env) (self : TaskExecutor) (ty : string) (t : Task)
          (xw : World) (flow : Flow) (executor : option Pool) (r' : Repos),
     task_repo (repos xw) !! task_id t = Some t ->
     get_flow_outcome xenv self t = Return flow ->
     fetch_outcome xenv = Return executor ->
     flow (engine_mode xenv) executor (max_workers xenv) (repos xw) =
       (r', Some e) ->
     snd (_run xenv self (task_id t) ty xw) = Raise e /\
     status <$> task_record (fst (_run xenv self (task_id t) ty xw))
                  (task_id t) = Some failure).
Proof.
  intros Hsave Hget Hwrite Hexpired Hauth id deleted.
  assert (Htask : forall (xenv : Env) (self : TaskExecutor) (ty : string)
            (t : Task) (xw : World) (flow : Flow) (executor : option Pool)
            (r' : Repos),
     task_repo (repos xw) !! task_id t = Some t ->
     get_flow_outcome xenv self t = Return flow ->
     fetch_outcome xenv = Return executor ->
     flow (engine_mode xenv) executor (max_workers xenv) (repos xw) =
       (r', Some e) ->
     snd (_run xenv self (task_id t) ty xw) = Raise e /\
     status <$> task_record (fst (_run xenv self (task_id t) ty xw))
                  (task_id t) = Some failure).
  { intros xenv self ty t xw flow executor r' Hfound Hflow Hfetch Hrun.
    rewrite (_run_found xenv self _ _ t) by done.
    cbn zeta. rewrite Hflow, Hfetch, Hrun.
    rewrite (NotAuthenticated_is_Exception e) by done.
    cbn [fst snd]. split; [done|].
    unfold task_record. cbn [repos task_repo].
    by rewrite lookup_insert_eq. }
  rewrite (import_image_after_transfer env props uri w written) by done.
  cbn zeta. fold id.
  unfold try_except, image_repo_get, image_repo_save. run_import.
  destruct Hexpired as [Hreload | [Hreload Hfinal]].
  - rewrite Hreload, Hauth. run_import. rewrite for_each_delete.
    run_import. unfold transferred_image.
    cbn [fst snd images gets saves calls locations].
    split; [done|]. rewrite <- !app_assoc.
    erewrite calls_since_app by reflexivity.
    split; [|split; [|split]].
    + unfold calls_up_to_transfer. cbn [app].
      rewrite !filter_cons_False by (cbn; done).
      apply filter_StoreDelete_map.
    + by exists [ImageGet id].
    + apply lookup_insert_eq.
    + exact Htask.
  - rewrite Hreload, lookup_insert_eq. run_import.
    rewrite Hfinal, Hauth. run_import. rewrite for_each_delete.
    run_import. unfold transferred_image.
    cbn [fst snd images gets saves calls locations].
    split; [done|]. rewrite <- !app_assoc.
    erewrite calls_since_app by reflexivity.
    split; [|split; [|split]].
    + unfold calls_up_to_transfer. cbn [app].
      rewrite !filter_cons_False by (cbn; done).
      apply filter_StoreDelete_map.
    + by eexists [ImageGet id; ImageSave _].
    + apply lookup_insert_eq.
    + exact Htask.
Qed.

Lemma expired_authorization_cleans_up_witness :
  get_fault (sample_import_env [None; Some expired_token] [])
    (S (gets sample_import_world)) = Some expired_token /\
  isinstance expired_token NotAuthenticated = true /\
  snd (import_image (sample_import_env [None; Some expired_token] []) ∅
         "http://www.example.com" sample_import_world) =
    Raise expired_token /\
  filter (fun ev => is_StoreDelete ev = true)
    (calls_since sample_import_world
       (fst (import_image (sample_import_env [None; Some expired_token] [])
               ∅ "http://www.example.com" sample_import_world))) =
    [StoreDelete "image-1" "location"].
Proof.
  split; [reflexivity|]. split; [reflexivity|].
  pose proof (expired_authorization_cleans_up
                (sample_import_env [None; Some expired_token] []) ∅
                "http://www.example.com" sample_import_world ["location"]
                expired_token eq_refl eq_refl eq_refl
                (or_introl eq_refl) eq_refl) as H.
  cbn zeta in H. destruct H as (Hraise & Hdel & _).
  split; [exact Hraise | exact Hdel].
Defined.

Lemma import_image_before_transfer (env : ImportEnv)
    (props : gmap string string) (uri : string) (w : ImportWorld) :
  (exists e,
     (save_fault env (saves w) = Some e \/
      (save_fault env (saves w) = None /\ get_fault env (gets w) = Some e)) /\
     snd (import_image env props uri w) = Raise e /\
     exists evs,
       calls (fst (import_image env props uri w)) = calls w ++ evs /\
       forall id' uri', StoreWrite id' uri' ∉ evs) \/
  (save_fault env (saves w) = None /\ get_fault env (gets w) = None).
Proof.
  destruct (save_fault env (saves w)) as [e|] eqn:Hsave.
  - left. exists e. split; [by left|].
    unfold import_image, create_image, image_repo_save. run_import.
    rewrite Hsave. cbn [fst snd calls]. split; [done|].
    eexists. rewrite <- app_assoc. split; [reflexivity|].
    intros id' uri'. cbn [app].
    rewrite !not_elem_of_cons. repeat split; try done.
    apply not_elem_of_nil.
  - destruct (get_fault env (gets w)) as [e|] eqn:Hget; [|by right].
    left. exists e. split; [by right|].
    unfold import_image, create_image, image_repo_save, image_repo_get.
    run_import. rewrite Hsave. run_import. rewrite Hget.
    cbn [fst snd calls]. split; [done|].
    eexists. rewrite <- !app_assoc. split; [reflexivity|].
    intros id' uri'. cbn [app].
    rewrite !not_elem_of_cons. repeat split; try done.
    apply not_elem_of_nil.
Qed.

(** C7: in every run of [import_image] that reaches the transfer, the
    calls start with the construction of the image record, the save of
    that record in status "saving", the read of it back from the
    repository, and only then the transfer; and when the transfer itself
    fails, the repository is left holding the record in status
    "saving". *)
Theorem provisional_image_saved_before_transfer (env : ImportEnv)
    (props : gmap string string) (uri : string) (w : ImportWorld) :
  (forall id' uri',
     StoreWrite id' uri'
       ∈ calls_since w (fst (import_image env props uri w)) ->
     image_status (provisional_image env props) = "saving" /\
     exists post,
       calls_since w (fst (import_image env props uri w)) =
         [NewImage (new_image env props);
          ImageSave (provisional_image env props);
          ImageGet (image_id (new_image env props));
          StoreWrite (image_id (new_image env props)) uri] ++ post) /\
  (forall e,
     save_fault env (saves w) = None ->
     get_fault env (gets w) = None ->
     store_write env (provisional_image env props) uri = Raise e ->
     snd (import_image env props uri w) = Raise e /\
     images (fst (import_image env props uri w))
       !! image_id (new_image env props) =
       Some (provisional_image env props)).
Proof.
  split.
  - intros id' uri' Hin. split; [done|].
    destruct (import_image_before_transfer env props uri w)
      as [(e & _ & _ & evs & Hcalls & Hno) | [Hsave Hget]].
    { rewrite (calls_since_app _ _ evs) in Hin by done.
      by apply Hno in Hin. }
    destruct (store_write env (provisional_image env props) uri)
      as [written|e] eqn:Hwrite.
    + rewrite (import_image_after_transfer env props uri w written) by done.
      cbn zeta.
      unfold try_except, image_repo_get, image_repo_save. run_import.
      destruct (get_fault env (S (gets w))) as [e|].
      { destruct (isinstance e NotAuthenticated); run_import;
          rewrite ?for_each_delete; cbn [fst calls];
          rewrite <- ?app_assoc;
          erewrite calls_since_app by reflexivity; eauto. }
      rewrite lookup_insert_eq. run_import.
      destruct (save_fault env (S (saves w))) as [e|].
      { destruct (isinstance e NotAuthenticated); run_import;
          rewrite ?for_each_delete; cbn [fst calls];
          rewrite <- ?app_assoc;
          erewrite calls_since_app by reflexivity; eauto. }
      run_import. rewrite <- ?app_assoc.
      erewrite calls_since_app by reflexivity. eauto.
    + unfold import_image, create_image, image_repo_save, image_repo_get,
        set_image_data.
      run_import. rewrite Hsave. run_import. rewrite Hget.
      rewrite lookup_insert_eq. run_import.
      fold (provisional_image env props). rewrite Hwrite.
      cbn [fst calls]. rewrite <- ?app_assoc.
      erewrite calls_since_app by reflexivity. by exists [].
  - intros e Hsave Hget Hwrite.
    unfold import_image, create_image, image_repo_save, image_repo_get,
      set_image_data.
    run_import. rewrite Hsave. run_import. rewrite Hget.
    rewrite lookup_insert_eq. run_import.
    fold (provisional_image env props). rewrite Hwrite.
    cbn [fst snd images]. split; [done|]. apply lookup_insert_eq.
Qed.

Lemma provisional_image_saved_before_transfer_witness :
  StoreWrite "image-1" "http://www.example.com"
    ∈ calls_since sample_import_world
        (fst (import_image (sample_import_env [] []) ∅
                "http://www.example.com" sample_import_world)) /\
  exists post,
    calls_since sample_import_world
      (fst (import_image (sample_import_env [] []) ∅
              "http://www.example.com" sample_import_world)) =
      [NewImage (mkImage "image-1" "queued" []);
       ImageSave (mkImage "image-1" "saving" []);
       ImageGet "image-1";
       StoreWrite "image-1" "http://www.example.com"] ++ post.
Proof.
  assert (Hin : StoreWrite "image-1" "http://www.example.com"
                  ∈ calls_since sample_import_world
                      (fst (import_image (sample_import_env [] []) ∅
                              "http://www.example.com"
                              sample_import_world))).
  { vm_compute. do 3 apply list_elem_of_further. apply list_elem_of_here. }
  split; [exact Hin|].
  exact (proj2 (proj1 (provisional_image_saved_before_transfer
                         (sample_import_env [] []) ∅
                         "http://www.example.com" sample_import_world)
                  "image-1" "http://www.example.com" Hin)).
Defined.

(** ** The two runs of [test_main.py] *)

(** [test_import_image]: the script answers the image id, after one
    transfer, with repository reads and saves. *)
Example test_import_image :
  snd (import_image (sample_import_env [] []) ∅ "http://www.example.com"
         sample_import_world) = Return "image-1" /\
  calls (fst (import_image (sample_import_env [] []) ∅
                "http://www.example.com" sample_import_world)) =
    [NewImage (mkImage "image-1" "queued" []);
     ImageSave (mkImage "image-1" "saving" []);
     ImageGet "image-1";
     StoreWrite "image-1" "http://www.example.com";
     ImageGet "image-1";
     ImageSave (mkImage "image-1" "active" ["location"])].
Proof. split; reflexivity. Qed.

(** [test_import_image_failed_with_expired_token]: the second [get]
    raises [NotAuthenticated]; the script raises it after one transfer
    and one delete of the one location. *)
Example test_import_image_failed_with_expired_token :
  snd (import_image (sample_import_env [None; Some expired_token] []) ∅
         "http://www.example.com" sample_import_world) =
    Raise expired_token /\
  calls (fst (import_image (sample_import_env [None; Some expired_token] [])
                ∅ "http://www.example.com" sample_import_world)) =
    [NewImage (mkImage "image-1" "queued" []);
     ImageSave (mkImage "image-1" "saving" []);
     ImageGet "image-1";
     StoreWrite "image-1" "http://www.example.com";
     ImageGet "image-1";
     StoreDelete "image-1" "location"].
Proof. split; reflexivity. Qed.

(** * Further properties of the executor *)

(** ** [_fetch_an_executor] *)

(** X1: a pool comes out of [_fetch_an_executor] only in the mode that is
    exactly "parallel", and it is then bounded by [max_workers]; the
    thread-backed pool comes out only after a [RuntimeError] of the
    cooperative one.  In any other mode nothing is constructed, and the
    parallel mode never answers [None]. *)
Theorem fetch_an_executor_pool_only_in_parallel (env : Env) (w : World) :
  (engine_mode env <> "parallel" ->
   _fetch_an_executor env w = (w, Return None)) /\
  (snd (_fetch_an_executor env w) = Return None ->
   engine_mode env <> "parallel") /\
  (forall p,
     snd (_fetch_an_executor env w) = Return (Some p) ->
     engine_mode env = "parallel" /\
     pool_max_workers p = max_workers env /\
     (pool_backing p = NativeThreadPool ->
      exists e,
        GreenThreadPoolExecutor_init env (max_workers env) = Some e /\
        isinstance e RuntimeError = true)).
Proof.
  destruct (String.eqb_spec (engine_mode env) "parallel") as [Hmode|Hmode].
  - rewrite _fetch_an_executor_parallel_cases by done. cbn zeta.
    split; [done|].
    destruct (GreenThreadPoolExecutor_init env (max_workers env)) as [e|].
    + destruct (isinstance e RuntimeError) eqn:Hrt; cbn [snd].
      * destruct (ThreadPoolExecutor_init env (max_workers env)).
        -- split; [done|]. intros p [=].
        -- split; [done|]. intros p [= <-]. cbn. eauto.
      * split; [done|]. intros p [=].
    + cbn [snd]. split; [done|]. intros p [= <-]. cbn. repeat split; done.
  - assert (Hnone : _fetch_an_executor env w = (w, Return None)).
    { unfold _fetch_an_executor.
      destruct (String.eqb_spec (engine_mode env) "parallel"); done. }
    rewrite Hnone. split; [done|]. split; [done|]. intros p [=].
Qed.

Lemma fetch_an_executor_pool_only_in_parallel_witness :
  engine_mode (sample_env "Parallel" (Return flow_ok) None None)
    <> "parallel" /\
  _fetch_an_executor (sample_env "Parallel" (Return flow_ok) None None)
    sample_world = (sample_world, Return None).
Proof.
  assert (Hmode : engine_mode
                    (sample_env "Parallel" (Return flow_ok) None None)
                    <> "parallel") by discriminate.
  split; [exact Hmode|].
  exact (proj1 (fetch_an_executor_pool_only_in_parallel
                  (sample_env "Parallel" (Return flow_ok) None None)
                  sample_world) Hmode).
Defined.

(** ** [_get_flow] *)

Lemma get_flow_outcome_cases (env : Env) (self : TaskExecutor) (t : Task) :
  (exists flow, get_flow_outcome env self t = Return flow) \/
  (exists e, raised_before_flow env self t e).
Proof.
  unfold get_flow_outcome, _get_flow, raised_before_flow. run_monad.
  destruct (unpack_task_input env t) as [inp|e] eqn:Hu; [|by eauto].
  run_monad.
  destruct (validate_location_uri env (inp !! "import_from")) as [uri|e]
    eqn:Hv; [|by eauto 10].
  run_monad.
  destruct (DriverManager env "xmonitor.flows" (type t) _) as [fl|e] eqn:Hd;
    [by eauto|].
  right. exists e. right. right. eauto 10.
Qed.

Lemma raised_before_flow_not_returned (env : Env) (self : TaskExecutor)
    (t : Task) (e : exn) (flow : Flow) :
  raised_before_flow env self t e ->
  get_flow_outcome env self t = Return flow -> False.
Proof.
  intros Hraised. rewrite (get_flow_outcome_raised env self t e) by done.
  repeat (match goal with |- context [if ?b then _ else _] =>
            destruct b end); discriminate.
Qed.

(** X2: no exception whose class is [URLError], [BadStoreUri], [Invalid]
    or [RuntimeError] leaves [_get_flow]: each of them is replaced, by an
    [ImportTaskError] or by a [NotImplementedError]; and a
    [NotImplementedError] that leaves it carries no detail.  The class is
    the class of the exception itself: nothing is said of its
    superclasses. *)
Theorem get_flow_never_raises_what_it_handles (env : Env)
    (self : TaskExecutor) (t : Task) (w : World) (e : exn) :
  snd (_get_flow env self t w) = Raise e ->
  exc_cls e <> URLError /\
  exc_cls e <> BadStoreUri /\
  exc_cls e <> Invalid /\
  exc_cls e <> RuntimeError /\
  (exc_cls e = NotImplementedError -> e = Exn NotImplementedError "").
Proof.
  rewrite _get_flow_frame. cbn [snd]. intros Hout.
  destruct (get_flow_outcome_cases env self t) as [[flow Hf]|[e0 Hraised]];
    [congruence|].
  rewrite (get_flow_outcome_raised env self t e0) in Hout by done.
  unfold isinstance in *. destruct e0 as [c d]. cbn [exc_cls exc_detail] in *.
  destruct c; cbn in Hout; injection Hout as <-; cbn; repeat split;
    try done; discriminate.
Qed.

Lemma get_flow_never_raises_what_it_handles_witness :
  snd (_get_flow (sample_env "serial" (Raise no_driver) None None)
         sample_self sample_task sample_world) =
    Raise (Exn NotImplementedError "") /\
  exc_cls (Exn NotImplementedError "") <> RuntimeError.
Proof.
  split; [reflexivity|].
  apply (get_flow_never_raises_what_it_handles
           (sample_env "serial" (Raise no_driver) None None)
           sample_self sample_task sample_world (Exn NotImplementedError "")).
  reflexivity.
Defined.

Lemma get_flow_events_validated (env : Env) (self : TaskExecutor)
    (t : Task) :
  get_flow_events env self t =
    match unpack_task_input env t with
    | Return inp =>
        match validate_location_uri env (inp !! "import_from") with
        | Return _ => [DriverLoad "xmonitor.flows" (type t)]
        | Raise _ => []
        end
    | Raise _ => []
    end.
Proof.
  unfold get_flow_events, _get_flow. run_monad.
  destruct (unpack_task_input env t) as [inp|e]; run_monad.
  - destruct (validate_location_uri env (inp !! "import_from")) as [uri|e];
      run_monad.
    + destruct (DriverManager env "xmonitor.flows" (type t) _) as [fl|e];
        run_monad; [done|].
      repeat (match goal with |- context [if ?b then _ else _] =>
                destruct b end; run_monad); done.
    + repeat (match goal with |- context [if ?b then _ else _] =>
                destruct b end; run_monad); done.
  - repeat (match goal with |- context [if ?b then _ else _] =>
              destruct b end; run_monad); done.
Qed.

(** X3: the driver is loaded only for an input that was unpacked and whose
    source location was validated, at most once, from the
    "xmonitor.flows" namespace and under the type of the task. *)
Theorem driver_loaded_only_after_validation (env : Env)
    (self : TaskExecutor) (t : Task) (w : World) :
  (forall ns name,
     DriverLoad ns name ∈ events_since w (fst (_get_flow env self t w)) ->
     ns = "xmonitor.flows" /\ name = type t /\
     exists inp uri,
       unpack_task_input env t = Return inp /\
       validate_location_uri env (inp !! "import_from") = Return uri) /\
  length (events_since w (fst (_get_flow env self t w))) <= 1.
Proof.
  rewrite _get_flow_frame. cbn [fst].
  erewrite events_since_app by reflexivity.
  rewrite get_flow_events_validated.
  destruct (unpack_task_input env t) as [inp|e] eqn:Hu.
  - destruct (validate_location_uri env (inp !! "import_from")) as [uri|e]
      eqn:Hv.
    + split; [|cbn; lia].
      intros ns name Hin. apply list_elem_of_singleton in Hin.
      injection Hin as -> ->. split; [done|]. split; [done|].
      exists inp, uri. split; [reflexivity | exact Hv].
    + split; [|cbn; lia].
      intros ns name Hin. by apply elem_of_nil in Hin.
  - split; [|cbn; lia].
    intros ns name Hin. by apply elem_of_nil in Hin.
Qed.

Lemma driver_loaded_only_after_validation_witness :
  DriverLoad "xmonitor.flows" "import"
    ∈ events_since sample_world
        (fst (_get_flow (sample_env "serial" (Return flow_ok) None None)
                sample_self sample_task sample_world)) /\
  exists inp uri,
    sample_unpack sample_task = Return inp /\
    sample_validate (inp !! "import_from") = Return uri.
Proof.
  assert (Hin : DriverLoad "xmonitor.flows" "import"
                  ∈ events_since sample_world
                      (fst (_get_flow
                              (sample_env "serial" (Return flow_ok) None None)
                              sample_self sample_task sample_world))).
  { vm_compute. apply list_elem_of_here. }
  split; [exact Hin|].
  exact (proj2 (proj2 (proj1 (driver_loaded_only_after_validation
                                (sample_env "serial" (Return flow_ok)
                                   None None)
                                sample_self sample_task sample_world)
                         "xmonitor.flows" "import" Hin))).
Defined.

(** ** [_run] *)

(** X4: an exception raised before the flow runs that is none of the
    classes [_get_flow] handles (an expired authorization, say) leaves
    [_run] as it is; nothing is written to the repositories, no pool is
    constructed and no engine is started. *)
Theorem unhandled_exception_before_flow_passes_through (env : Env)
    (self : TaskExecutor) (id ty : string) (t : Task) (w : World) (e : exn) :
  task_repo (repos w) !! id = Some t ->
  raised_before_flow env self t e ->
  isinstance e URLError = false ->
  isinstance e BadStoreUri = false ->
  isinstance e Invalid = false ->
  isinstance e RuntimeError = false ->
  snd (_run env self id ty w) = Raise e /\
  repos (fst (_run env self id ty w)) = repos w /\
  filter (fun ev => is_pool_event ev || is_EngineRun ev || is_RepoSave ev
                    = true)
    (events_since w (fst (_run env self id ty w))) = [].
Proof.
  intros Hget Hraised Hurl Hbad Hinv Hrt.
  rewrite (_run_found env self id ty t) by done. cbn zeta.
  rewrite (get_flow_outcome_raised env self t e) by done.
  rewrite Hurl, Hbad, Hinv, Hrt. cbn [orb fst snd repos].
  split; [done|]. split; [done|].
  erewrite events_since_app by reflexivity.
  rewrite filter_app, get_flow_events_filter by done. done.
Qed.

Lemma unhandled_exception_before_flow_passes_through_witness :
  task_repo (repos sample_world) !! "t1" = Some sample_task /\
  snd (_run (sample_env "parallel" (Raise expired_token) None None)
         sample_self "t1" "import" sample_world) = Raise expired_token.
Proof.
  split; [reflexivity|].
  apply (unhandled_exception_before_flow_passes_through
           (sample_env "parallel" (Raise expired_token) None None)
           sample_self "t1" "import" sample_task sample_world expired_token
           eq_refl);
    [|reflexivity..].
  right. right. eexists _, _. repeat split; reflexivity.
Defined.

(** X5: when the flow completes, [_run] returns; the executor itself saves
    nothing and logs no error, so the repositories are exactly what the
    flow left, and the engine was started once, with the configured mode
    and bound and the executor that was acquired. *)
Theorem completed_flow_is_left_as_the_flow_left_it (env : Env)
    (self : TaskExecutor) (id ty : string) (t : Task) (w : World)
    (flow : Flow) (executor : option Pool) (r' : Repos) :
  task_repo (repos w) !! id = Some t ->
  get_flow_outcome env self t = Return flow ->
  fetch_outcome env = Return executor ->
  flow (engine_mode env) executor (max_workers env) (repos w) = (r', None) ->
  snd (_run env self id ty w) = Return tt /\
  repos (fst (_run env self id ty w)) = r' /\
  filter (fun ev => is_RepoSave ev || is_LogError ev = true)
    (events_since w (fst (_run env self id ty w))) = [] /\
  filter (fun ev => is_EngineRun ev = true)
    (events_since w (fst (_run env self id ty w))) =
    [EngineRun (engine_mode env) executor (max_workers env)].
Proof.
  intros Hget Hflow Hfetch Hrun.
  rewrite (_run_found env self id ty t) by done. cbn zeta.
  rewrite Hflow, Hfetch, Hrun. cbn [fst snd repos].
  split; [done|]. split; [done|].
  rewrite <- ?app_assoc. erewrite events_since_app by reflexivity.
  split.
  - rewrite ?filter_app, get_flow_events_filter, fetch_events_filter by done.
    by destruct executor.
  - rewrite ?filter_app, get_flow_events_filter, fetch_events_filter by done.
    by destruct executor.
Qed.

Lemma completed_flow_is_left_as_the_flow_left_it_witness :
  task_repo (repos sample_world) !! "t1" = Some sample_task /\
  repos (fst (_run (sample_env "serial" (Return flow_ok) None None)
                sample_self "t1" "import" sample_world)) =
    repos sample_world.
Proof.
  split; [reflexivity|].
  apply (completed_flow_is_left_as_the_flow_left_it
           (sample_env "serial" (Return flow_ok) None None)
           sample_self "t1" "import" sample_task sample_world flow_ok None
           (repos sample_world));
    reflexivity.
Defined.

(** X6: when the flow ends with an exception that is not an instance of
    [Exception], [_run] raises it again without saving or logging
    anything: the repositories are exactly what the flow left, and the
    executor, if any, is still shut down. *)
Theorem non_Exception_of_flow_is_only_cleaned_up (env : Env)
    (self : TaskExecutor) (id ty : string) (t : Task) (w : World)
    (flow : Flow) (executor : option Pool) (r' : Repos) (e : exn) :
  task_repo (repos w) !! id = Some t ->
  get_flow_outcome env self t = Return flow ->
  fetch_outcome env = Return executor ->
  flow (engine_mode env) executor (max_workers env) (repos w) = (r', Some e) ->
  isinstance e Exception = false ->
  snd (_run env self id ty w) = Raise e /\
  repos (fst (_run env self id ty w)) = r' /\
  filter (fun ev => is_RepoSave ev || is_LogError ev = true)
    (events_since w (fst (_run env self id ty w))) = [] /\
  filter (fun ev => is_PoolShutdown ev = true)
    (events_since w (fst (_run env self id ty w))) =
    shutdown_events executor.
Proof.
  intros Hget Hflow Hfetch Hrun HE.
  rewrite (_run_found env self id ty t) by done. cbn zeta.
  rewrite Hflow, Hfetch, Hrun, HE. cbn [fst snd repos].
  split; [done|]. split; [done|].
  rewrite <- ?app_assoc. erewrite events_since_app by reflexivity.
  split.
  - rewrite ?filter_app, get_flow_events_filter, fetch_events_filter by done.
    by destruct executor.
  - rewrite ?filter_app, get_flow_events_filter, fetch_events_filter by done.
    by destruct executor.
Qed.

Lemma non_Exception_of_flow_is_only_cleaned_up_witness :
  task_repo (repos sample_world) !! "t1" = Some sample_task /\
  isinstance keyboard_interrupt Exception = false /\
  filter (fun ev => is_PoolShutdown ev = true)
    (events_since sample_world
       (fst (_run
               (sample_env "parallel"
                  (Return (flow_raising keyboard_interrupt)) None None)
               sample_self "t1" "import" sample_world))) =
    [PoolShutdown (mkPool GreenThreadPool 10)].
Proof.
  split; [reflexivity|]. split; [reflexivity|].
  apply (non_Exception_of_flow_is_only_cleaned_up
           (sample_env "parallel"
              (Return (flow_raising keyboard_interrupt)) None None)
           sample_self "t1" "import" sample_task sample_world
           (flow_raising keyboard_interrupt)
           (Some (mkPool GreenThreadPool 10)) (repos sample_world)
           keyboard_interrupt);
    reflexivity.
Defined.

(** X7: whatever the outcome of a run, the executor writes at most the
    record of the task it loaded: the record of every other task and the
    whole image repository are what the flow left (what they were, when
    the run stops before the engine). *)
Theorem run_writes_only_the_record_of_its_task (env : Env)
    (self : TaskExecutor) (id ty : string) (t : Task) (w : World) :
  task_repo (repos w) !! id = Some t ->
  image_repo (repos (fst (_run env self id ty w))) =
    image_repo (repos_after_flow env self t w) /\
  forall id',
    id' <> task_id t ->
    task_repo (repos (fst (_run env self id ty w))) !! id' =
      task_repo (repos_after_flow env self t w) !! id'.
Proof.
  intros Hget.
  rewrite (_run_found env self id ty t) by done. cbn zeta.
  unfold repos_after_flow.
  destruct (get_flow_outcome env self t) as [flow|e]; [|done].
  destruct (fetch_outcome env) as [executor|e]; [|done].
  destruct (flow (engine_mode env) executor (max_workers env) (repos w))
    as [r' [e|]]; [|done].
  destruct (isinstance e Exception); [|done].
  cbn [fst repos task_repo image_repo]. split; [done|].
  intros id' Hne. by rewrite lookup_insert_ne.
Qed.

Lemma run_writes_only_the_record_of_its_task_witness :
  task_repo (repos sample_world) !! "t1" = Some sample_task /\
  image_repo
    (repos (fst (_run
                   (sample_env "serial"
                      (Return (flow_raising (Exn Exception "boom")))
                      None None)
                   sample_self "t1" "import" sample_world))) =
    image_repo
      (repos_after_flow
         (sample_env "serial"
            (Return (flow_raising (Exn Exception "boom"))) None None)
         sample_self sample_task sample_world).
Proof.
  split; [reflexivity|].
  apply (run_writes_only_the_record_of_its_task
           (sample_env "serial"
              (Return (flow_raising (Exn Exception "boom"))) None None)
           sample_self "t1" "import" sample_task sample_world).
  reflexivity.
Defined.

Lemma get_flow_events_omap (f : event -> option event) (env : Env)
    (self : TaskExecutor) (t : Task) :
  (forall ns name, f (DriverLoad ns name) = None) ->
  omap f (get_flow_events env self t) = [].
Proof.
  intros Hf. destruct (get_flow_events_cases env self t) as [-> | ->];
    [done|].
  cbn. by rewrite Hf.
Qed.

Lemma fetch_events_omap (f : event -> option event) (env : Env) :
  (forall k n, f (PoolConstruct k n) = None) ->
  omap f (fetch_events env) = [].
Proof.
  intros Hf. destruct (fetch_events_cases env) as [-> | [-> | ->]];
    [done| |]; cbn; by rewrite !Hf.
Qed.

Lemma pickup_events_filter (P : event -> bool) (id ty : string) :
  (forall m, P (LogDebug m) = false) ->
  (forall i, P (RepoGet i) = false) ->
  filter (fun ev => P ev = true) (pickup_events id ty) = [].
Proof.
  intros Hd Hg. unfold pickup_events.
  rewrite !filter_cons_False, filter_nil; [done| |]; by rewrite ?Hd, ?Hg.
Qed.

Ltac trace_filters :=
  rewrite ?omap_app, ?filter_app, ?get_flow_events_omap,
    ?get_flow_events_filter, ?fetch_events_omap, ?fetch_events_filter,
    ?pickup_events_filter by done.

(** X8: in every run of [_run], found task or not, the engine is started
    at most once, and the pools that are shut down are exactly the pools
    an engine was started on, in that order: no pool is shut down twice
    and none that was not handed to the engine. *)
Theorem run_shuts_down_exactly_the_pool_of_the_engine (env : Env)
    (self : TaskExecutor) (id ty : string) (w : World) :
  filter (fun ev => is_PoolShutdown ev = true)
    (events_since w (fst (_run env self id ty w))) =
    omap shutdown_of_engine_run
      (events_since w (fst (_run env self id ty w))) /\
  length (filter (fun ev => is_EngineRun ev = true)
            (events_since w (fst (_run env self id ty w)))) <= 1.
Proof.
  destruct (task_repo (repos w) !! id) as [t|] eqn:Hget.
  - rewrite (_run_found env self id ty t) by done. cbn zeta.
    destruct (get_flow_outcome env self t) as [flow|e].
    2:{ cbn [fst trace]. erewrite events_since_app by reflexivity.
        trace_filters. split; [done|]. vm_compute. lia. }
    destruct (fetch_outcome env) as [executor|e].
    2:{ cbn [fst trace]. rewrite <- ?app_assoc.
        erewrite events_since_app by reflexivity.
        trace_filters. split; [done|]. vm_compute. lia. }
    destruct (flow (engine_mode env) executor (max_workers env) (repos w))
      as [r' [e|]]; [destruct (isinstance e Exception)|];
      cbn [fst trace]; rewrite <- ?app_assoc;
      erewrite events_since_app by reflexivity;
      trace_filters;
      destruct executor; (split; [done|]); vm_compute; lia.
  - rewrite _run_absent by done. cbn [fst trace].
    erewrite events_since_app by reflexivity.
    trace_filters. split; [done|]. vm_compute. lia.
Qed.

(** X9: in a mode other than "parallel" no run constructs or shuts down
    a pool, and an engine that is started gets no executor. *)
Theorem serial_run_has_no_pool (env : Env) (self : TaskExecutor)
    (id ty : string) (w : World) :
  engine_mode env <> "parallel" ->
  filter (fun ev => is_pool_event ev = true)
    (events_since w (fst (_run env self id ty w))) = [] /\
  forall mode executor n,
    EngineRun mode executor n
      ∈ events_since w (fst (_run env self id ty w)) ->
    executor = None.
Proof.
  intros Hmode.
  assert (Hfetch : _fetch_an_executor env initial_world =
                     (initial_world, Return None)).
  { unfold _fetch_an_executor.
    destruct (String.eqb_spec (engine_mode env) "parallel"); done. }
  assert (Hout : fetch_outcome env = Return None)
    by (unfold fetch_outcome; by rewrite Hfetch).
  assert (Hev : fetch_events env = [])
    by (unfold fetch_events; by rewrite Hfetch).
  assert (Hgf : forall t mode executor n,
            EngineRun mode executor n ∉ get_flow_events env self t).
  { intros t mode executor n.
    destruct (get_flow_events_cases env self t) as [-> | ->].
    - apply not_elem_of_nil.
    - rewrite not_elem_of_cons. split; [done|]. apply not_elem_of_nil. }
  destruct (task_repo (repos w) !! id) as [t|] eqn:Hget.
  - rewrite (_run_found env self id ty t) by done. cbn zeta.
    rewrite Hout, Hev.
    destruct (get_flow_outcome env self t) as [flow|e].
    2:{ cbn [fst trace]. erewrite events_since_app by reflexivity.
        rewrite filter_app, get_flow_events_filter by done.
        split; [done|]. intros mode executor n.
        unfold pickup_events. rewrite elem_of_app, !elem_of_cons, elem_of_nil.
        intros [[?|[?|?]]|Hin]; try done. by apply Hgf in Hin. }
    destruct (flow (engine_mode env) None (max_workers env) (repos w))
      as [r' [e|]]; [destruct (isinstance e Exception)|];
      cbn [fst trace shutdown_events]; rewrite <- ?app_assoc;
      erewrite events_since_app by reflexivity;
      rewrite ?filter_app, get_flow_events_filter by done;
      (split; [done|]); intros mode executor n; unfold pickup_events;
      rewrite !elem_of_app, !elem_of_cons, !elem_of_nil;
      intros Hin; decompose [or] Hin; try done;
      try (by match goal with H : _ ∈ get_flow_events _ _ _ |- _ =>
                apply Hgf in H end);
      congruence.
  - rewrite _run_absent by done. cbn [fst trace].
    erewrite events_since_app by reflexivity. split; [done|].
    intros mode executor n. unfold pickup_events. cbn [app].
    rewrite !elem_of_cons, elem_of_nil. intros [?|[?|[?|?]]]; done.
Qed.

Lemma serial_run_has_no_pool_witness :
  engine_mode
    (sample_env "serial" (Return flow_ok) (Some no_eventlet) None)
    <> "parallel" /\
  filter (fun ev => is_pool_event ev = true)
    (events_since sample_world
       (fst (_run
               (sample_env "serial" (Return flow_ok) (Some no_eventlet) None)
               sample_self "t1" "import" sample_world))) = [].
Proof.
  assert (Hmode : engine_mode
                    (sample_env "serial" (Return flow_ok)
                       (Some no_eventlet) None) <> "parallel")
    by discriminate.
  split; [exact Hmode|].
  exact (proj1 (serial_run_has_no_pool
                  (sample_env "serial" (Return flow_ok)
                     (Some no_eventlet) None)
                  sample_self "t1" "import" sample_world Hmode)).
Defined.

(** * [Gateway]: the layers of the objects it builds *)

(** X11: every object a getter of the gateway answers is an authorization
    proxy around a stack that contains a policy proxy and ends in a domain
    or database object, and the layers always come in one order: from the
    inside out location, quota, policy, notifier, property protections,
    authorization. *)
Theorem gateway_layers_come_in_one_order (g : Gateway.getter) (c : string)
    (protection_enabled : bool) :
  head (Gateway.modules (Gateway.call g c protection_enabled)) =
    Some Gateway.authorization /\
  Gateway.decreasing
    (Gateway.rank <$> Gateway.modules (Gateway.call g c protection_enabled))
    = true /\
  Gateway.policy ∈ Gateway.modules (Gateway.call g c protection_enabled) /\
  (last (Gateway.modules (Gateway.call g c protection_enabled)) =
     Some Gateway.domain \/
   last (Gateway.modules (Gateway.call g c protection_enabled)) =
     Some Gateway.db).
Proof.
  destruct g, protection_enabled; cbn;
    (split; [reflexivity|]); (split; [reflexivity|]);
    (split;
     [repeat first [apply list_elem_of_here | apply list_elem_of_further]
     |first [by left | by right]]).
Qed.

(** X12: of all the constructor calls a getter makes, every proxy and
    every database object is given the context of the call and no other;
    the only constructors called without a context are the domain
    factories, which take no argument, and [PropertyRules], which is given
    the policy enforcer alone, and which is constructed exactly when
    protection is enabled and the getter is the one of the image factory
    or of the image repository. *)
Theorem gateway_threads_the_context (g : Gateway.getter) (c : string)
    (protection_enabled : bool) :
  Forall
    (fun call =>
       match fst call with
       | Gateway.layer Gateway.domain _ => snd call = []
       | Gateway.layer _ _ => Gateway.contexts (snd call) = [c]
       | Gateway.rules => snd call = [Gateway.the_policy]
       end)
    (Gateway.constructor_calls (Gateway.call g c protection_enabled)) /\
  ((exists args,
      (Gateway.rules, args)
        ∈ Gateway.constructor_calls (Gateway.call g c protection_enabled)) <->
   protection_enabled = true /\
   (g = Gateway.image_factory_getter \/ g = Gateway.repo_getter)).
Proof.
  split.
  - destruct g, protection_enabled; cbn;
      repeat (apply Forall_cons; split; [reflexivity|]);
      apply Forall_nil_2.
  - destruct g, protection_enabled; cbn; split;
      try (intros [[=] _]; fail);
      try (intros [_ [[=]|[=]]]; fail);
      try (intros _; split; [reflexivity | first [by left | by right]]);
      try (intros _; eexists;
           apply list_elem_of_further, list_elem_of_further,
             list_elem_of_here);
      intros [args H];
      repeat (apply elem_of_cons in H as [H|H]; [discriminate H|]);
      by apply elem_of_nil in H.
Qed.

Lemma gateway_threads_the_context_witness :
  (exists args,
     (Gateway.rules, args)
       ∈ Gateway.constructor_calls
           (Gateway.call Gateway.image_factory_getter "admin" true)) /\
  true = true /\
  (Gateway.image_factory_getter = Gateway.image_factory_getter \/
   Gateway.image_factory_getter = Gateway.repo_getter).
Proof.
  assert (H : exists args,
            (Gateway.rules, args)
              ∈ Gateway.constructor_calls
                  (Gateway.call Gateway.image_factory_getter "admin" true)).
  { eexists. cbn.
    apply list_elem_of_further, list_elem_of_further, list_elem_of_here. }
  split; [exact H|].
  exact (proj1 (proj2 (gateway_threads_the_context
                         Gateway.image_factory_getter "admin" true)) H).
Defined.

(** X13: the property-protection proxy is part of an object exactly when
    protection is enabled and the object is the image factory or the
    image repository, and it then sits directly under the authorization
    proxy. *)
Theorem gateway_property_protection_layer (g : Gateway.getter) (c : string)
    (protection_enabled : bool) :
  (Gateway.property_protections
     ∈ Gateway.modules (Gateway.call g c protection_enabled) <->
   protection_enabled = true /\
   (g = Gateway.image_factory_getter \/ g = Gateway.repo_getter)) /\
  (Gateway.property_protections
     ∈ Gateway.modules (Gateway.call g c protection_enabled) ->
   Gateway.modules (Gateway.call g c protection_enabled) !! 1 =
     Some Gateway.property_protections).
Proof.
  destruct g, protection_enabled; cbn; (split; [split|]);
    try (intros [[=] _]; fail);
    try (intros [_ [[=]|[=]]]; fail);
    try (intros _; split; [reflexivity | first [by left | by right]]);
    try (intros _; reflexivity);
    try (intros _; apply list_elem_of_further, list_elem_of_here);
    intros H;
    repeat (apply elem_of_cons in H as [H|H]; [discriminate H|]);
    by apply elem_of_nil in H.
Qed.

Lemma gateway_property_protection_layer_witness :
  Gateway.property_protections
    ∈ Gateway.modules (Gateway.call Gateway.repo_getter "admin" true) /\
  Gateway.modules (Gateway.call Gateway.repo_getter "admin" true) !! 1 =
    Some Gateway.property_protections.
Proof.
  assert (Hin : Gateway.property_protections
                  ∈ Gateway.modules
                      (Gateway.call Gateway.repo_getter "admin" true)).
  { cbn. apply list_elem_of_further, list_elem_of_here. }
  split; [exact Hin|].
  exact (proj2 (gateway_property_protection_layer Gateway.repo_getter
                  "admin" true) Hin).
Defined.

(** * [ImageActionsController]: deactivate and reactivate *)

Ltac run_action :=
  unfold ImageActions.run, ImageActions.deactivate, ImageActions.reactivate,
    ImageActions.try_except, ImageActions.get, ImageActions.save,
    ImageActions.image_dot_deactivate, ImageActions.image_dot_reactivate,
    ImageActions.transition;
  unfold ImageActions.bind, ImageActions.log, ImageActions.raise;
  cbn [fst snd ImageActions.images ImageActions.calls].

Ltac no_save_among H :=
  cbn [app] in H;
  repeat (apply elem_of_cons in H as [H|H]; [discriminate H|]);
  by apply elem_of_nil in H.

Ltac save_among H :=
  cbn [app] in H;
  repeat (apply elem_of_cons in H as [H|H];
          [first [discriminate H | injection H as <-; eauto]|]);
  by apply elem_of_nil in H.

Lemma image_action_cases (a : ImageActions.action) (env : ImageActions.Env)
    (id : string) (s : ImageActions.State) :
  (exists e,
     ImageActions.raised_in_body a env id s e /\
     snd (ImageActions.run a env id s) =
       ImageActions.Err (ImageActions.http_error e) /\
     ImageActions.images (fst (ImageActions.run a env id s)) =
       ImageActions.images s /\
     filter (fun c => ImageActions.is_LogInfo c = true)
       (ImageActions.calls_since s (fst (ImageActions.run a env id s))) = [] /\
     forall img',
       ImageActions.Save img'
         ∈ ImageActions.calls_since s (fst (ImageActions.run a env id s)) ->
       exists img,
         ImageActions.repo_get env (ImageActions.images s) id =
           ImageActions.Ok img /\
         ImageActions.transition a env img = ImageActions.Ok img') \/
  (exists img img' imgs,
     ImageActions.repo_get env (ImageActions.images s) id =
       ImageActions.Ok img /\
     ImageActions.transition a env img = ImageActions.Ok img' /\
     ImageActions.repo_save env (ImageActions.images s) img' =
       ImageActions.Ok imgs /\
     snd (ImageActions.run a env id s) = ImageActions.Ok tt /\
     ImageActions.images (fst (ImageActions.run a env id s)) = imgs /\
     filter (fun c => ImageActions.is_Save c = true)
       (ImageActions.calls_since s (fst (ImageActions.run a env id s))) =
       [ImageActions.Save img'] /\
     filter (fun c => ImageActions.is_LogInfo c = true)
       (ImageActions.calls_since s (fst (ImageActions.run a env id s))) <> []).
Proof.
  unfold ImageActions.raised_in_body, ImageActions.calls_since.
  destruct a; run_action.
  all: destruct (ImageActions.repo_get env (ImageActions.images s) id)
         as [img|e] eqn:Hget.
  all: try (left; exists e; split; [by left|];
            destruct e; cbn [fst snd ImageActions.images ImageActions.calls
                             ImageActions.http_error];
            rewrite <- ?app_assoc, drop_app_length;
            (split; [done|]); (split; [done|]); (split; [done|]);
            intros x Hin; no_save_among Hin).
  all: cbn [fst snd ImageActions.images ImageActions.calls].
  - destruct (ImageActions.image_deactivate env img) as [img'|e] eqn:Htr.
    2:{ left. exists e. split; [right; left; eauto|].
        destruct e; cbn [fst snd ImageActions.images ImageActions.calls
                         ImageActions.http_error];
          rewrite <- ?app_assoc, drop_app_length;
          (split; [done|]); (split; [done|]); (split; [done|]);
          intros x Hin; no_save_among Hin. }
    cbn [fst snd ImageActions.images ImageActions.calls].
    destruct (ImageActions.repo_save env (ImageActions.images s) img')
      as [imgs|e] eqn:Hsave.
    2:{ left. exists e. split; [right; right; eauto 10|].
        destruct e; cbn [fst snd ImageActions.images ImageActions.calls
                         ImageActions.http_error];
          rewrite <- ?app_assoc, drop_app_length;
          (split; [done|]); (split; [done|]); (split; [done|]);
          intros x Hin; save_among Hin. }
    right. exists img, img', imgs.
    cbn [fst snd ImageActions.images ImageActions.calls].
    rewrite <- ?app_assoc, drop_app_length. done.
  - destruct (ImageActions.image_reactivate env img) as [img'|e] eqn:Htr.
    2:{ left. exists e. split; [right; left; eauto|].
        destruct e; cbn [fst snd ImageActions.images ImageActions.calls
                         ImageActions.http_error];
          rewrite <- ?app_assoc, drop_app_length;
          (split; [done|]); (split; [done|]); (split; [done|]);
          intros x Hin; no_save_among Hin. }
    cbn [fst snd ImageActions.images ImageActions.calls].
    destruct (ImageActions.repo_save env (ImageActions.images s) img')
      as [imgs|e] eqn:Hsave.
    2:{ left. exists e. split; [right; right; eauto 10|].
        destruct e; cbn [fst snd ImageActions.images ImageActions.calls
                         ImageActions.http_error];
          rewrite <- ?app_assoc, drop_app_length;
          (split; [done|]); (split; [done|]); (split; [done|]);
          intros x Hin; save_among Hin. }
    right. exists img, img', imgs.
    cbn [fst snd ImageActions.images ImageActions.calls].
    rewrite <- ?app_assoc, drop_app_length. done.
Qed.

Lemma raised_in_body_functional (a : ImageActions.action)
    (env : ImageActions.Env) (id : string) (s : ImageActions.State)
    (e e' : ImageActions.error) :
  ImageActions.raised_in_body a env id s e ->
  ImageActions.raised_in_body a env id s e' ->
  e = e'.
Proof.
  unfold ImageActions.raised_in_body.
  intros [H1 | [(i1 & H1 & H2) | (i1 & j1 & H1 & H2 & H3)]]
         [G1 | [(i2 & G1 & G2) | (i2 & j2 & G1 & G2 & G3)]];
    congruence.
Qed.

Lemma http_error_is_not_domain_error (e : ImageActions.error) :
  ImageActions.is_domain_error (ImageActions.http_error e) = false.
Proof. by destruct e. Qed.

(** X14: [deactivate] and [reactivate] turn a [NotFound], a [Forbidden]
    and an [InvalidImageStatusTransition] raised by the repository or by
    the transition into the 404, 403 and 400 errors with the message of
    the exception; any other exception passes unchanged; and none of the
    three classes ever leaves the method. *)
Theorem image_action_translates_errors (a : ImageActions.action)
    (env : ImageActions.Env) (id : string) (s : ImageActions.State) :
  (forall msg,
     ImageActions.raised_in_body a env id s (ImageActions.NotFound msg) ->
     snd (ImageActions.run a env id s) =
       ImageActions.Err (ImageActions.HTTPNotFound msg)) /\
  (forall msg,
     ImageActions.raised_in_body a env id s (ImageActions.Forbidden msg) ->
     snd (ImageActions.run a env id s) =
       ImageActions.Err (ImageActions.HTTPForbidden msg)) /\
  (forall msg,
     ImageActions.raised_in_body a env id s
       (ImageActions.InvalidImageStatusTransition msg) ->
     snd (ImageActions.run a env id s) =
       ImageActions.Err (ImageActions.HTTPBadRequest msg)) /\
  (forall e,
     ImageActions.raised_in_body a env id s e ->
     ImageActions.is_domain_error e = false ->
     snd (ImageActions.run a env id s) = ImageActions.Err e) /\
  (forall e,
     snd (ImageActions.run a env id s) = ImageActions.Err e ->
     ImageActions.is_domain_error e = false).
Proof.
  assert (Hraised : forall e,
            ImageActions.raised_in_body a env id s e ->
            snd (ImageActions.run a env id s) =
              ImageActions.Err (ImageActions.http_error e)).
  { intros e He.
    destruct (image_action_cases a env id s)
      as [(e0 & He0 & Hout & _) | (img & img' & imgs & Hg & Ht & Hs & _)].
    - by rewrite (raised_in_body_functional _ _ _ _ _ _ He He0).
    - unfold ImageActions.raised_in_body in He.
      destruct He as [H | [(i & H1 & H2) | (i & j & H1 & H2 & H3)]];
        congruence. }
  repeat split.
  - intros msg H. by rewrite (Hraised _ H).
  - intros msg H. by rewrite (Hraised _ H).
  - intros msg H. by rewrite (Hraised _ H).
  - intros e H Hd. rewrite (Hraised _ H). by destruct e.
  - intros e Hout.
    destruct (image_action_cases a env id s)
      as [(e0 & He0 & Hout0 & _) | (img & img' & imgs & _ & _ & _ & Hok & _)].
    + rewrite Hout0 in Hout. injection Hout as <-.
      apply http_error_is_not_domain_error.
    + congruence.
Qed.

Lemma image_action_translates_errors_witness :
  ImageActions.raised_in_body ImageActions.deactivate_action
    (ImageActions.sample_env true) "image-2" ImageActions.sample_state
    (ImageActions.NotFound "No image found with ID image-2") /\
  snd (ImageActions.run ImageActions.deactivate_action
         (ImageActions.sample_env true) "image-2" ImageActions.sample_state)
    = ImageActions.Err
        (ImageActions.HTTPNotFound "No image found with ID image-2").
Proof.
  assert (H : ImageActions.raised_in_body ImageActions.deactivate_action
                (ImageActions.sample_env true) "image-2"
                ImageActions.sample_state
                (ImageActions.NotFound "No image found with ID image-2"))
    by (left; reflexivity).
  split; [exact H|].
  exact (proj1 (image_action_translates_errors
                  ImageActions.deactivate_action
                  (ImageActions.sample_env true) "image-2"
                  ImageActions.sample_state) _ H).
Defined.

(** X15: [deactivate] and [reactivate] save only the image the transition
    answered, after the repository found the image; the method returns
    exactly when it logged the success, which it does only after the save
    went through, and the repository then holds what that save
    answered. *)
Theorem image_action_saves_after_transition (a : ImageActions.action)
    (env : ImageActions.Env) (id : string) (s : ImageActions.State) :
  (forall img',
     ImageActions.Save img'
       ∈ ImageActions.calls_since s (fst (ImageActions.run a env id s)) ->
     exists img,
       ImageActions.repo_get env (ImageActions.images s) id =
         ImageActions.Ok img /\
       ImageActions.transition a env img = ImageActions.Ok img') /\
  (snd (ImageActions.run a env id s) = ImageActions.Ok tt <->
   filter (fun c => ImageActions.is_LogInfo c = true)
     (ImageActions.calls_since s (fst (ImageActions.run a env id s))) <> []) /\
  (snd (ImageActions.run a env id s) = ImageActions.Ok tt ->
   exists img img',
     ImageActions.repo_get env (ImageActions.images s) id =
       ImageActions.Ok img /\
     ImageActions.transition a env img = ImageActions.Ok img' /\
     ImageActions.repo_save env (ImageActions.images s) img' =
       ImageActions.Ok
         (ImageActions.images (fst (ImageActions.run a env id s)))).
Proof.
  destruct (image_action_cases a env id s)
    as [(e0 & He0 & Hout & Himgs & Hinfo & Hsave)
       | (img & img' & imgs & Hg & Ht & Hs & Hok & Himgs & Hsaves & Hinfo)].
  - split; [exact Hsave|]. rewrite Hout, Hinfo. repeat split; try done.
  - split.
    + intros x Hin.
      assert (Hx : ImageActions.Save x
                     ∈ filter (fun c => ImageActions.is_Save c = true)
                         (ImageActions.calls_since s
                            (fst (ImageActions.run a env id s)))).
      { apply list_elem_of_filter. by split. }
      rewrite Hsaves in Hx. apply list_elem_of_singleton in Hx.
      injection Hx as ->. eauto.
    + rewrite Hok. split; [done|].
      intros _. exists img, img'. by rewrite Himgs.
Qed.

Lemma image_action_saves_after_transition_witness :
  snd (ImageActions.run ImageActions.deactivate_action
         (ImageActions.sample_env true) "image-1" ImageActions.sample_state)
    = ImageActions.Ok tt /\
  ImageActions.images
    (fst (ImageActions.run ImageActions.deactivate_action
            (ImageActions.sample_env true) "image-1"
            ImageActions.sample_state)) !! "image-1" =
    Some (mkImage "image-1" "deactivated" ["location"]).
Proof.
  assert (Hok : snd (ImageActions.run ImageActions.deactivate_action
                       (ImageActions.sample_env true) "image-1"
                       ImageActions.sample_state) = ImageActions.Ok tt)
    by reflexivity.
  split; [exact Hok|].
  destruct (proj2 (proj2 (image_action_saves_after_transition
                            ImageActions.deactivate_action
                            (ImageActions.sample_env true) "image-1"
                            ImageActions.sample_state)) Hok)
    as (img & img' & Hg & Ht & Hs).
  reflexivity.
Defined.

(** * [versions.Controller] *)

(** X16: [index] answers one version, "v1.0" and CURRENT, with one "self"
    link.  With a public endpoint that is set and not empty the link is
    that endpoint followed by "/v1/" whatever the request; with none, or
    an empty one, it is the host URL of the request followed by "/v1/".
    The status is 200 for an explicit request and 300 otherwise, and a
    bare call is not explicit. *)
Theorem versions_index_answer (public_endpoint : option string)
    (req : Versions.Request) (explicit : bool) :
  (exists base,
     Versions.versions (Versions.index public_endpoint req explicit) =
       [Versions.mkVersionObject "v1.0" "CURRENT"
          [Versions.mkLink "self" (base +:+ "/v1/")]] /\
     (forall u, public_endpoint = Some u -> u <> "" -> base = u) /\
     (public_endpoint = None \/ public_endpoint = Some "" ->
      base = Versions.host_url req)) /\
  Versions.status_int (Versions.index public_endpoint req explicit) =
    (if explicit then 200 else 300)%Z /\
  Versions.__call__ public_endpoint req =
    Versions.index public_endpoint req false /\
  Versions.status_int (Versions.__call__ public_endpoint req) = 300%Z.
Proof.
  split; [|by destruct explicit].
  exists (Versions.or_else public_endpoint (Versions.host_url req)).
  split; [reflexivity|]. split.
  - intros u -> Hu. by destruct u.
  - by intros [-> | ->].
Qed.

Lemma versions_index_answer_witness :
  Some "https://images.example.com" = Some "https://images.example.com" /\
  Versions.versions
    (Versions.index (Some "https://images.example.com")
       (Versions.mkRequest "http://10.0.0.5:9292") false) =
    [Versions.mkVersionObject "v1.0" "CURRENT"
       [Versions.mkLink "self" "https://images.example.com/v1/"]].
Proof.
  split; [reflexivity|].
  destruct (proj1 (versions_index_answer
                     (Some "https://images.example.com")
                     (Versions.mkRequest "http://10.0.0.5:9292") false))
    as (base & Hv & Hset & _).
  rewrite Hv, (Hset "https://images.example.com" eq_refl); [reflexivity|].
  discriminate.
Defined.
